(** * libptmalloc, [frontend/commands/gdb/ptmeta.py]: the metadata database

    A shallow embedding of the module's globals ([meta_cache],
    [backtrace_ignore], [colorize_table]), of the query functions
    [get_metadata], [get_first_function], [get_functions] and of the
    [ptmeta] command ([invoke], [list_metadata], [configure_metadata],
    [delete_metadata], [add_metadata], and the snapshot functions).

    Python objects are a small inductive universe, dictionaries keep their
    insertion order (association lists), the ignore list is a finite set,
    exceptions are an explicit outcome, and the module's globals together
    with the snapshot files and the terminal are threaded as a state. *)

From Stdlib Require Import ZArith String Ascii DecimalString HexadecimalString.
From stdpp Require Import base decidable option list gmap strings.

Open Scope Z_scope.

(** ** Python values *)

(** The objects that reach the database: [None], a [str], a list of [str]
    (resolved function names) and the capture the debugger returns for a
    backtrace, a dict with the entries ["raw"] and ["funcs"]. *)
Inductive pyobj :=
| PyNone
| PyStr (s : string)
| PyList (l : list string)
| PyCapture (raw : string) (funcs : list string).

#[global] Instance pyobj_eq_dec : EqDecision pyobj.
Proof. solve_decision. Defined.

Inductive exn := KeyError | TypeError | ValueError | FileNotFoundError.

#[global] Instance exn_eq_dec : EqDecision exn.
Proof. solve_decision. Defined.

(** The result of evaluating Python code that may raise. *)
Inductive outcome (A : Type) :=
| Ok (a : A)
| Raise (e : exn).
Arguments Ok {A} a.
Arguments Raise {A} e.

#[global] Instance outcome_ret : MRet outcome := fun A a => Ok a.
#[global] Instance outcome_bind : MBind outcome := fun A B f m =>
  match m with
  | Ok a => f a
  | Raise e => Raise e
  end.

(** ** Strings *)

Module pystr.

(** [sep.join(l)] *)
Fixpoint join (sep : string) (l : list string) : string :=
  match l with
  | [] => ""
  | [x] => x
  | x :: l' => x +:+ sep +:+ join sep l'
  end.

(** [c in s] for a one-character [c] *)
Fixpoint contains (c : ascii) (s : string) : bool :=
  match s with
  | EmptyString => false
  | String c' s' => if decide (c = c') then true else contains c s'
  end.

(** [s.split(c)] for a one-character separator: never empty *)
Fixpoint split (c : ascii) (s : string) : list string :=
  match s with
  | EmptyString => [""]
  | String c' s' =>
      if decide (c = c') then "" :: split c s'
      else match split c s' with
           | [] => [String c' ""]
           | w :: ws => String c' w :: ws
           end
  end.

(** ASCII white space as [str.strip()] sees it: tab, line feed, vertical
    tab, form feed, carriage return, the four separators 0x1c-0x1f and the
    space.  (Python also strips the white space outside ASCII; a string is
    a sequence of bytes here.) *)
Definition is_space (c : ascii) : bool :=
  let n := nat_of_ascii c in
  ((9 <=? n)%nat && (n <=? 13)%nat) || ((28 <=? n)%nat && (n <=? 32)%nat).

(** The white space [int()] skips in an ASCII string: the separators
    0x1c-0x1f are not part of it. *)
Definition is_c_space (c : ascii) : bool :=
  let n := nat_of_ascii c in
  ((9 <=? n)%nat && (n <=? 13)%nat) || (n =? 32)%nat.

Fixpoint lstrip (space : ascii → bool) (s : string) : string :=
  match s with
  | String c s' => if space c then lstrip space s' else s
  | EmptyString => ""
  end.

(** white space removed at the end: a character is kept when it is not a
    space or something is kept after it *)
Fixpoint rstrip (space : ascii → bool) (s : string) : string :=
  match s with
  | EmptyString => ""
  | String c s' =>
      match rstrip space s' with
      | EmptyString => if space c then "" else String c ""
      | r => String c r
      end
  end.

(** [s.strip()] *)
Definition strip (s : string) : string := rstrip is_space (lstrip is_space s).

Definition is_digit (c : ascii) : bool :=
  let n := nat_of_ascii c in (48 <=? n)%nat && (n <=? 57)%nat.

Definition digit (c : ascii) : Z := Z.of_nat (nat_of_ascii c) - 48.

(** the digits of a decimal literal after its sign: a digit, then digits
    each optionally preceded by one underscore *)
Fixpoint digits (acc : Z) (s : string) : option Z :=
  match s with
  | EmptyString => Some acc
  | String c s' =>
      if is_digit c then digits (10 * acc + digit c) s'
      else if decide (c = "_"%char) then
        match s' with
        | String d s'' =>
            if is_digit d then digits (10 * acc + digit d) s'' else None
        | EmptyString => None
        end
      else None
  end.

Definition unsigned (s : string) : option Z :=
  match s with
  | String c s' => if is_digit c then digits (digit c) s' else None
  | EmptyString => None
  end.

(** [int(s)] in base ten: white space around, an optional sign, digits;
    [None] stands for the [ValueError].  (Outside ASCII Python also takes
    the Unicode spaces and decimal digits, which are a [ValueError] here;
    the limit that recent versions put on the number of digits is left
    out.) *)
Definition int (s : string) : option Z :=
  match rstrip is_c_space (lstrip is_c_space s) with
  | String "-" s' => Z.opp <$> unsigned s'
  | String "+" s' => unsigned s'
  | s' => unsigned s'
  end.

(** the double quote *)
Definition dquote : ascii := ascii_of_nat 34.

Definition hex_digit (n : nat) : ascii :=
  ascii_of_nat (if (n <? 10)%nat then 48 + n else 87 + n).

(** the escape [\xhh] of [repr] *)
Definition escape_x (c : ascii) : string :=
  let n := nat_of_ascii c in
  String "\" (String "x" (String (hex_digit (n / 16)) (String (hex_digit (n mod 16)) ""))).

Fixpoint repr_body (quote : ascii) (s : string) : string :=
  match s with
  | EmptyString => ""
  | String c s' =>
      let n := nat_of_ascii c in
      (if decide (c = quote) then String "\" (String c "")
       else if decide (c = "\"%char) then "\\"
       else if decide (n = 9%nat) then "\t"
       else if decide (n = 10%nat) then "\n"
       else if decide (n = 13%nat) then "\r"
       else if (n <? 32)%nat || (n =? 127)%nat then escape_x c
       else String c "") +:+ repr_body quote s'
  end.

(** [repr(s)]: single quotes, unless [s] has a single quote and no double
    quote; bytes above 0x7f are copied, as Python copies the printable
    characters outside ASCII *)
Definition repr (s : string) : string :=
  let q := if contains "'" s && negb (contains dquote s) then dquote else "'"%char in
  String q (repr_body q s) +:+ String q "".

(** [repr] of a list of [str] *)
Definition repr_list (l : list string) : string :=
  "[" +:+ join ", " (map repr l) +:+ "]".

End pystr.

(** [str(o)], which is what ["%s" % o] formats.  The capture is a dict
    whose entries were inserted as ["raw"], then ["funcs"]. *)
Definition py_str (o : pyobj) : string :=
  match o with
  | PyNone => "None"
  | PyStr s => s
  | PyList l => pystr.repr_list l
  | PyCapture raw funcs =>
      "{'raw': " +:+ pystr.repr raw +:+ ", 'funcs': " +:+ pystr.repr_list funcs +:+ "}"
  end.

(** ** Dictionaries in insertion order *)

Module odict.
Section odict.
Context {K V : Type} `{EqDecision K}.

(** [d.get(k)]: [None] when [k] is not a key *)
Fixpoint get (k : K) (d : list (K * V)) : option V :=
  match d with
  | [] => None
  | (k', v) :: d' => if decide (k = k') then Some v else get k d'
  end.

(** [k in d] *)
Definition mem (k : K) (d : list (K * V)) : bool :=
  match get k d with Some _ => true | None => false end.

(** [d[k]], a [KeyError] when [k] is not a key *)
Definition getitem (k : K) (d : list (K * V)) : outcome V :=
  match get k d with Some v => Ok v | None => Raise KeyError end.

(** [d[k] = v]: an existing key keeps its place, a new one goes last *)
Fixpoint set (k : K) (v : V) (d : list (K * V)) : list (K * V) :=
  match d with
  | [] => [(k, v)]
  | (k', v') :: d' =>
      if decide (k = k') then (k, v) :: d' else (k', v') :: set k v d'
  end.

(** [del d[k]] for a key of [d] *)
Fixpoint del (k : K) (d : list (K * V)) : list (K * V) :=
  match d with
  | [] => []
  | (k', v') :: d' => if decide (k = k') then d' else (k', v') :: del k d'
  end.

(** [list(d.keys())] *)
Definition keys (d : list (K * V)) : list K := map fst d.

Definition values (d : list (K * V)) : list V := map snd d.

End odict.
End odict.

(** [l.remove(x)]: the first occurrence goes ([ValueError] when there is
    none, but the callers test [x in l] first) *)
Fixpoint list_remove (x : string) (l : list string) : list string :=
  match l with
  | [] => []
  | y :: l' => if decide (x = y) then l' else y :: list_remove x l'
  end.

(** [x in l] *)
Definition list_mem (x : string) (l : list string) : bool := bool_decide (x ∈ l).

(** ** The module's globals *)

(** The functions of [printutils] the table refers to. *)
Inductive pu_color :=
| red | green | yellow | blue | purple | cyan | gray
| light_red | light_green | light_yellow | light_blue | light_purple
| light_cyan | light_gray | white | black.

(** What [colorize_func] can be bound to: the builtin [str] or an entry of
    [colorize_table]. *)
Inductive colorizer :=
| builtin_str
| pu (c : pu_color).

#[global] Instance pu_color_eq_dec : EqDecision pu_color.
Proof. solve_decision. Defined.
#[global] Instance colorizer_eq_dec : EqDecision colorizer.
Proof. solve_decision. Defined.

Definition colorize_table : list (string * colorizer) :=
  [ ("red", pu red);
    ("green", pu green);
    ("yellow", pu yellow);
    ("blue", pu blue);
    ("purple", pu purple);
    ("cyan", pu cyan);
    ("gray", pu gray);
    ("lightred", pu light_red);
    ("lightgreen", pu light_green);
    ("lightyellow", pu light_yellow);
    ("lightblue", pu light_blue);
    ("lightpurple", pu light_purple);
    ("lightcyan", pu light_cyan);
    ("lightgray", pu light_gray);
    ("white", pu white);
    ("black", pu black) ].

Definition METADATA_DB : string := "metadata.pickle".

(** A record of the database: field name to value, in insertion order. *)
Abbreviation record := (list (string * pyobj)).

(** What a snapshot file holds: the pickled dict with the entries
    ["meta_cache"] and ["backtrace_ignore"]. *)
Record snapshot := Snapshot {
  snap_meta_cache : list (Z * record);
  snap_backtrace_ignore : gset string
}.

(** What the command writes to the terminal, in order. *)
Inductive output :=
| Print (s : string)             (* text sent by [print], its end included *)
| Colorized (f : colorizer) (s : string) (* [colorize_func(s)], printed *)
| PPrint (s : gset string)       (* [pprint.pprint] of the ignore list *)
| PrintError (s : string)        (* [pu.print_error] *)
| PrintHeader (s : string)       (* [pu.print_header(s, end=None)] *)
| PrintHelp.                     (* [self.parser.print_help()] *)

(** The globals [meta_cache] and [backtrace_ignore], the snapshot files by
    name, and the terminal. *)
Record state := State {
  meta_cache : list (Z * record);
  backtrace_ignore : gset string;
  files : gmap string snapshot;
  stdout : list output
}.

Definition initial : state :=
  {| meta_cache := []; backtrace_ignore := ∅; files := ∅; stdout := [] |}.

(** ** Queries *)

(** The loop of [get_functions] over [funcs], [L] being the list built so
    far; the [break] ends it. *)
Fixpoint get_functions_loop (ignore : gset string) (max_len : option Z)
    (funcs : list string) (L : list string) : list string :=
  match funcs with
  | [] => L
  | f :: funcs' =>
      if decide (f ∈ ignore) then get_functions_loop ignore max_len funcs' L
      else
        let L := L ++ [f] in
        match max_len with
        | Some n =>
            if decide (Z.of_nat (length L) = n) then L
            else get_functions_loop ignore max_len funcs' L
        | None => get_functions_loop ignore max_len funcs' L
        end
  end.

(** [o["funcs"]] and [o["raw"]]: only the capture is a dict *)
Definition capture_funcs (o : pyobj) : outcome (list string) :=
  match o with
  | PyCapture _ funcs => Ok funcs
  | _ => Raise TypeError
  end.

Definition capture_raw (o : pyobj) : outcome string :=
  match o with
  | PyCapture raw _ => Ok raw
  | _ => Raise TypeError
  end.

(** [get_functions(address, max_len)]; [None] is Python's [None]. *)
Definition get_functions (st : state) (address : Z) (max_len : option Z)
    : outcome (option (list string)) :=
  if negb (odict.mem address (meta_cache st)) then Ok None
  else
    d ← odict.getitem address (meta_cache st);
    if negb (odict.mem "backtrace" d) then Ok None
    else
      bt ← odict.getitem "backtrace" d;
      funcs ← capture_funcs bt;
      Ok (Some (get_functions_loop (backtrace_ignore st) max_len funcs [])).

Definition get_first_function (st : state) (address : Z)
    : outcome (option (list string)) :=
  get_functions st address (Some 1).

(** The second argument of [get_metadata]: the string ["all"] or a list. *)
Inductive metadata_arg :=
| all
| names (l : list string).

(** The variables of [get_metadata] that its loop updates. *)
Record vars := Vars {
  L : list pyobj;
  suffix : string;
  epilog : string;
  colorize_func : colorizer;
  opened : bool
}.

(** [key, param = key.split(":")] when [":" in key] *)
Definition split_key (key : string) : outcome (string * option string) :=
  if pystr.contains ":" key then
    match pystr.split ":" key with
    | [k; p] => Ok (k, Some p)
    | _ => Raise ValueError
    end
  else Ok (key, None).

(** [int(param)] *)
Definition py_int (param : string) : outcome Z :=
  match pystr.int param with
  | Some n => Ok n
  | None => Raise ValueError
  end.

(** [colorize_table[color]]: a [str] is looked up, [None] is hashable and
    not a key, a list or a dict is not hashable *)
Definition colorize_table_getitem (color : pyobj) : outcome colorizer :=
  match color with
  | PyStr c => odict.getitem c colorize_table
  | PyNone => Raise KeyError
  | PyList _ | PyCapture _ _ => Raise TypeError
  end.

Definition of_funcs_list (funcs_list : option (list string)) : pyobj :=
  match funcs_list with
  | Some l => PyList l
  | None => PyNone
  end.

(** One iteration of the loop [for key in list_metadata]. *)
Definition get_metadata_step (st : state) (address : Z) (v : vars)
    (key : string) : outcome vars :=
  '(key, param) ← split_key key;
  d ← odict.getitem address (meta_cache st);
  if negb (odict.mem key d) then
    if negb (bool_decide (key = "color")) then
      Ok {| L := L v ++ [PyNone];
            suffix := suffix v +:+ " | N/A";
            epilog := epilog v +:+ "'" +:+ key +:+ "' key not found in metadata database
";
            colorize_func := colorize_func v;
            opened := true |}
    else Ok v
  else if bool_decide (key = "backtrace") then
    funcs_list ← match param with
                 | None => get_first_function st address
                 | Some p => n ← py_int p; get_functions st address (Some n)
                 end;
    let suffix :=
      match funcs_list with
      | None => suffix v +:+ " | N/A"
      | Some [] => suffix v +:+ " | filtered"
      | Some l => suffix v +:+ " | " +:+ pystr.join "," l
      end in
    bt ← odict.getitem "backtrace" d;
    raw ← capture_raw bt;
    Ok {| L := L v ++ [of_funcs_list funcs_list];
          suffix := suffix;
          epilog := epilog v +:+ raw;
          colorize_func := colorize_func v;
          opened := true |}
  else if bool_decide (key = "color") then
    color ← odict.getitem key d;
    f ← colorize_table_getitem color;
    Ok {| L := L v; suffix := suffix v; epilog := epilog v;
          colorize_func := f; opened := opened v |}
  else
    x ← odict.getitem key d;
    Ok {| L := L v ++ [x];
          suffix := suffix v +:+ " | " +:+ py_str x;
          epilog := epilog v +:+ py_str x +:+ "
";
          colorize_func := colorize_func v;
          opened := true |}.

Fixpoint get_metadata_loop (st : state) (address : Z) (v : vars)
    (list_metadata : list string) : outcome vars :=
  match list_metadata with
  | [] => Ok v
  | key :: rest =>
      v ← get_metadata_step st address v key;
      get_metadata_loop st address v rest
  end.

(** The expansion of ["all"]. *)
Definition expand_all (d : record) : list string :=
  let list_metadata := odict.keys d in
  if list_mem "backtrace" list_metadata then
    list_remove "backtrace" list_metadata ++ ["backtrace:-1"]
  else list_metadata.

(** [get_metadata(address, list_metadata)]: the tuple
    [L, suffix, epilog, colorize_func], where [L] may be [None]. *)
Definition get_metadata (st : state) (address : Z) (list_metadata : metadata_arg)
    : outcome (option (list pyobj) * string * string * colorizer) :=
  if negb (odict.mem address (meta_cache st)) then
    Ok (None, "", "chunk address not found in metadata database
", builtin_str)
  else
    list_metadata ← match list_metadata with
                    | all => d ← odict.getitem address (meta_cache st);
                             Ok (expand_all d)
                    | names l => Ok l
                    end;
    v ← get_metadata_loop st address
          {| L := []; suffix := ""; epilog := ""; colorize_func := builtin_str;
             opened := false |} list_metadata;
    let suffix := if opened v then suffix v +:+ " |" else suffix v in
    Ok (Some (L v), suffix, epilog v, colorize_func v).

(** ** The command *)

(** Python code that reads and updates the state and may raise. *)
Definition cmd (A : Type) : Type := state → outcome A * state.

#[global] Instance cmd_ret : MRet cmd := fun A a st => (Ok a, st).
#[global] Instance cmd_bind : MBind cmd := fun A B f m st =>
  match m st with
  | (Ok a, st') => f a st'
  | (Raise e, st') => (Raise e, st')
  end.

Definition get_state : cmd state := fun st => (Ok st, st).

Definition lift {A} (o : outcome A) : cmd A := fun st => (o, st).

Definition write (o : output) : cmd unit := fun st =>
  (Ok (), {| meta_cache := meta_cache st; backtrace_ignore := backtrace_ignore st;
             files := files st; stdout := stdout st ++ [o] |}).

Definition set_meta_cache (mc : list (Z * record)) : cmd unit := fun st =>
  (Ok (), {| meta_cache := mc; backtrace_ignore := backtrace_ignore st;
             files := files st; stdout := stdout st |}).

Definition set_backtrace_ignore (s : gset string) : cmd unit := fun st =>
  (Ok (), {| meta_cache := meta_cache st; backtrace_ignore := s;
             files := files st; stdout := stdout st |}).

Definition set_files (fs : gmap string snapshot) : cmd unit := fun st =>
  (Ok (), {| meta_cache := meta_cache st; backtrace_ignore := backtrace_ignore st;
             files := fs; stdout := stdout st |}).

(** [print(s)] and [print(s, end=nothing)] *)
Definition print (s : string) : cmd unit := write (Print (s +:+ "
")).
Definition print_noend (s : string) : cmd unit := write (Print s).

Definition when (b : bool) (c : cmd unit) : cmd unit := if b then c else mret ().

(** Modelled from the spec: the Debugger collaborator ([self.dbg]), whose
    code is not in this module.  [parse_address] resolves an address
    expression to the candidate addresses, [get_backtrace] returns the
    capture of the current stack: its raw text and its function names. *)
Record debugger := Debugger {
  parse_address : string → list Z;
  get_backtrace : string * list string
}.

(** The parsed command line ([self.args]): the options of the main parser
    and, under [action], the arguments of the chosen sub-command. *)
Inductive action_args :=
| add (address key : string) (value : option string)
| del (address : string)
| list_ (address : option string) (metadata : option string)
| config (feature key : string) (values : list string).

Record Args := {
  verbose : nat;
  action : option action_args;
  save : bool;
  load : bool
}.

Record ptmeta := { dbg : debugger; args : Args }.

Definition args_metadata (a : Args) : option string :=
  match action a with
  | Some (list_ _ metadata) => metadata
  | _ => None
  end.

Definition save_metadata_to_file (filename : string) : cmd unit :=
  st ← get_state;
  set_files (<[filename := Snapshot (meta_cache st) (backtrace_ignore st)]> (files st)).

Definition load_metadata_from_file (filename : string) : cmd unit :=
  st ← get_state;
  match files st !! filename with
  | None => lift (Raise FileNotFoundError)
  | Some d =>
      set_meta_cache (snap_meta_cache d);;
      set_backtrace_ignore (snap_backtrace_ignore d)
  end.

Definition hex (k : Z) : string :=
  "0x" +:+ HexadecimalString.NilZero.string_of_int (Z.to_hex_int k).

Definition decimal (k : Z) : string :=
  DecimalString.NilZero.string_of_int (Z.to_int k).

(** The field names of all the records, each once, in the order met. *)
Fixpoint discover (keys : list string) (list_metadata : list string) : list string :=
  match keys with
  | [] => list_metadata
  | k2 :: keys' =>
      discover keys' (if list_mem k2 list_metadata then list_metadata
                      else list_metadata ++ [k2])
  end.

(** The loops of [list_metadata] over [meta_cache.items()]: one line per
    address, or one block per address. *)
Fixpoint list_lines (address : option Z) (list_metadata : list string)
    (items : list (Z * record)) : cmd unit :=
  match items with
  | [] => mret ()
  | (k, _) :: items' =>
      (if bool_decide (address = None ∨ address = Some k) then
         st ← get_state;
         '(_, s, _, colorize_func) ← lift (get_metadata st k (names list_metadata));
         print_noend "| ";; write (Colorized colorize_func (hex k));;
         print s
       else mret ());;
      list_lines address list_metadata items'
  end.

Fixpoint list_blocks (address : option Z) (list_metadata : list string)
    (items : list (Z * record)) : cmd unit :=
  match items with
  | [] => mret ()
  | (k, _) :: items' =>
      (if bool_decide (address = None ∨ address = Some k) then
         st ← get_state;
         '(_, _, e, colorize_func) ← lift (get_metadata st k (names list_metadata));
         write (Colorized colorize_func (hex k));; print ":";;
         print e
       else mret ());;
      list_blocks address list_metadata items'
  end.

Definition list_metadata (self : ptmeta) (address : option Z) : cmd unit :=
  st ← get_state;
  (if negb (bool_decide (length (meta_cache st) = 0%nat)) then
     write (PrintHeader "Metadata database");;
     let list_metadata :=
       match args_metadata (args self) with
       | None =>
           let list_metadata :=
             discover (concat (map (fun kd => odict.keys kd.2) (meta_cache st))) [] in
           if bool_decide (verbose (args self) = 0%nat) && list_mem "backtrace" list_metadata
           then list_remove "backtrace" list_metadata
           else list_metadata
       | Some metadata => map pystr.strip (pystr.split "," metadata)
       end in
     if bool_decide (verbose (args self) ≤ 1)%nat then
       print_noend "| address | ";;
       print_noend (pystr.join " | " list_metadata);;
       print " |";;
       list_lines address list_metadata (meta_cache st)
     else
       list_blocks address list_metadata (meta_cache st)
   else
     write (PrintHeader "Metadata database");;
     print "N/A");;
  print "";;
  if negb (bool_decide (backtrace_ignore st = ∅)) then
    write (PrintHeader "Function ignore list for backtraces");;
    write (PPrint (backtrace_ignore st))
  else
    write (PrintHeader "Function ignore list for backtraces");;
    print "N/A".

Definition configure_metadata (self : ptmeta) (feature key : string)
    (values : list string) : cmd unit :=
  when (bool_decide (1 ≤ verbose (args self))%nat)
       (print "Configuring metadata database...");;
  if bool_decide (key = "backtrace") then
    if bool_decide (feature = "ignore") then
      st ← get_state;
      set_backtrace_ignore (backtrace_ignore st ∪ list_to_set values)
    else
      write (PrintError "WARNING: Unsupported feature")
  else
    write (PrintError "WARNING: Unsupported key").

Definition delete_metadata (self : ptmeta) (address : Z) : cmd unit :=
  st ← get_state;
  if negb (odict.mem address (meta_cache st)) then mret ()
  else
    when (bool_decide (1 ≤ verbose (args self))%nat)
         (print ("Deleting metadata for " +:+ decimal address +:+ " from database..."));;
    set_meta_cache (odict.del address (meta_cache st)).

(** [value], as the parser gives it, as a Python object *)
Definition of_value (value : option string) : pyobj :=
  match value with
  | Some s => PyStr s
  | None => PyNone
  end.

(** [value in colorize_table] *)
Definition is_color (value : option string) : bool :=
  match value with
  | Some s => odict.mem s colorize_table
  | None => false
  end.

(** The two assignments that end [add_metadata]. *)
Definition store (address : Z) (key : string) (result : pyobj) : cmd unit :=
  st ← get_state;
  when (negb (odict.mem address (meta_cache st)))
       (set_meta_cache (odict.set address [] (meta_cache st)));;
  st ← get_state;
  d ← lift (odict.getitem address (meta_cache st));
  set_meta_cache (odict.set address (odict.set key result d) (meta_cache st)).

Definition add_metadata (self : ptmeta) (address : Z) (key : string)
    (value : option string) : cmd unit :=
  when (bool_decide (1 ≤ verbose (args self))%nat)
       (print "Adding to metadata database...");;
  if bool_decide (key = "backtrace") then
    let '(raw, funcs) := get_backtrace (dbg self) in
    store address key (PyCapture raw funcs)
  else if bool_decide (key = "color") then
    if negb (is_color value) then
      write (PrintError ("ERROR: Unsupported color. Need one of: "
                         +:+ pystr.join ", " (odict.keys colorize_table)))
    else store address key (of_value value)
  else store address key (of_value value).

(** The address of [list], [add] and [del]: the first candidate the
    debugger resolves the expression to. *)
Definition with_address (self : ptmeta) (text : string) (k : Z → cmd unit) : cmd unit :=
  match parse_address (dbg self) text with
  | [] =>
      write (PrintError "WARNING: No valid address supplied");;
      write PrintHelp
  | address :: _ => k address
  end.

Definition invoke (self : ptmeta) : cmd unit :=
  match action (args self) with
  | None =>
      if negb (save (args self)) && negb (load (args self)) then
        write (PrintError "WARNING: requires an action");;
        write PrintHelp
      else if save (args self) then
        print "Saving metadata database to file...";;
        save_metadata_to_file METADATA_DB
      else
        print "Loading metadata database from file...";;
        load_metadata_from_file METADATA_DB
  | Some (list_ None _) => list_metadata self None
  | Some (list_ (Some text) _) =>
      with_address self text (fun address => list_metadata self (Some address))
  | Some (del text) =>
      with_address self text (fun address => delete_metadata self address)
  | Some (config feature key values) => configure_metadata self feature key values
  | Some (add text key value) =>
      with_address self text (fun address => add_metadata self address key value)
  end.

(** A session: the commands run one after the other, an exception ending a
    command and not the session. *)
Definition run (self : ptmeta) (st : state) : state := (invoke self st).2.

Definition session (cmds : list ptmeta) (st : state) : state :=
  foldl (fun st self => run self st) st cmds.

(** ** What the specification says, and the states of the examples *)

(** The function names that are kept: those not in the ignore list, in
    their order. *)
Definition kept (ignore : gset string) (funcs : list string) : list string :=
  filter (fun f => f ∉ ignore) funcs.

(** The resolver as the specification words it: drop the ignored frames,
    then keep the first [maxFrames], [-1] being unlimited. *)
Definition resolve_spec (ignore : gset string) (frames : list string)
    (maxFrames : Z) : list string :=
  if decide (maxFrames = -1) then kept ignore frames
  else take (Z.to_nat maxFrames) (kept ignore frames).

(** A record at 0x20 with three frames, ["f2"] being ignored. *)
Definition st_0x20 : state :=
  {| meta_cache := [(32, [("backtrace", PyCapture "#0 f1 #1 f2 #2 f3" ["f1"; "f2"; "f3"])])];
     backtrace_ignore := {["f2"]};
     files := ∅;
     stdout := [] |}.

(** The names of the palette. *)
Definition palette : list string := odict.keys colorize_table.

(** The debugger of the examples: it knows the expression [0x10] and the
    stack [main > work]. *)
Definition dbg_0x10 : debugger :=
  {| parse_address := fun text => if decide (text = "0x10") then [16] else [];
     get_backtrace := ("#0 work #1 main", ["work"; "main"]) |}.

(** [ptmeta <action ...>], without options *)
Definition command (a : action_args) : ptmeta :=
  {| dbg := dbg_0x10;
     args := {| verbose := 0; action := Some a; save := false; load := false |} |}.

(** [ptmeta -S] and [ptmeta -L] *)
Definition command_save : ptmeta :=
  {| dbg := dbg_0x10;
     args := {| verbose := 0; action := None; save := true; load := false |} |}.

Definition command_load : ptmeta :=
  {| dbg := dbg_0x10;
     args := {| verbose := 0; action := None; save := false; load := true |} |}.

(** The field that was added at an address is the only entry of the
    structured list when it is asked for. *)
Definition sole_entry_after_add (self : ptmeta) (st : state) (address : Z)
    (key : string) (value : option string) : Prop :=
  ∃ s e f,
    get_metadata (add_metadata self address key value st).2 address (names [key])
    = Ok (Some [of_value value], s, e, f).

(** Asking for the color only gives the empty list and the empty suffix. *)
Definition color_only_is_empty (st : state) (address : Z) : Prop :=
  ∃ e f, get_metadata st address (names ["color"]) = Ok (Some [], "", e, f).

(** The color field of a record is a name of the palette. *)
Definition color_ok (d : record) : bool :=
  match odict.get "color" d with
  | None => true
  | Some (PyStr c) => odict.mem c colorize_table
  | Some _ => false
  end.

(** The backtrace field of a record is a capture. *)
Definition backtrace_ok (d : record) : bool :=
  match odict.get "backtrace" d with
  | None | Some (PyCapture _ _) => true
  | Some _ => false
  end.

(** A record as [add_metadata] builds it. *)
Definition wf_record (d : record) : bool :=
  bool_decide (NoDup (odict.keys d)) && color_ok d && backtrace_ok d.

(** The colorizer a record asks for. *)
Definition color_of (d : record) : colorizer :=
  match odict.get "color" d with
  | Some (PyStr c) => default builtin_str (odict.get c colorize_table)
  | _ => builtin_str
  end.

(** A field as the specification resolves it for ["all"]: the backtrace
    becomes its kept frames, any other field is its value. *)
Definition resolved (ignore : gset string) (kv : string * pyobj) : pyobj :=
  match kv.2 with
  | PyCapture _ funcs =>
      if decide (kv.1 = "backtrace") then PyList (kept ignore funcs) else kv.2
  | x => x
  end.

(** ["all"] gives every field of the record, in insertion order. *)
Definition all_fields_in_order (st : state) (address : Z) : Prop :=
  ∀ d, odict.get address (meta_cache st) = Some d →
    ∃ s e f,
      get_metadata st address all
      = Ok (Some (map (resolved (backtrace_ignore st)) d), s, e, f).

(** A field that is neither the color nor the backtrace. *)
Definition plain (kv : string * pyobj) : Prop :=
  kv.1 ≠ "color" ∧ kv.1 ≠ "backtrace".

#[global] Instance plain_dec kv : Decision (plain kv).
Proof. unfold plain. apply _. Defined.

(** What ["all"] gives: the plain fields in insertion order, then the kept
    frames of the backtrace when the record has one. *)
Definition all_entries (ignore : gset string) (d : record) : list pyobj :=
  odict.values (filter plain d)
  ++ match odict.get "backtrace" d with
     | Some (PyCapture _ funcs) => [PyList (kept ignore funcs)]
     | _ => []
     end.

(** No field name of the record has a colon. *)
Definition no_colon (d : record) : bool :=
  forallb (fun k => negb (pystr.contains ":" k)) (odict.keys d).

(** The databases after [add 0x10 backtrace] and [add 0x10 tag x], after
    [add 0x10 color green], and after [add 0x10 tag:1 v]. *)
Definition st_backtrace_first : state :=
  session [command (add "0x10" "backtrace" None);
           command (add "0x10" "tag" (Some "x"))] initial.

Definition st_colored : state :=
  session [command (add "0x10" "color" (Some "green"))] initial.

Definition st_colon : state :=
  session [command (add "0x10" "tag:1" (Some "v"))] initial.

(** The command is [ptmeta -L]: no action, no [-S]. *)
Definition is_load (a : Args) : bool :=
  match action a with
  | None => negb (save a) && load a
  | Some _ => false
  end.

(** No command of a session takes a name out of the ignore list. *)
Definition ignore_never_shrinks : Prop :=
  ∀ cmds self,
    let st := session cmds initial in
    backtrace_ignore st ⊆ backtrace_ignore (run self st).

(** Commands that are not a load. *)
Definition a_session : list ptmeta :=
  [command (config "ignore" "backtrace" ["malloc"; "f2"]);
   command (add "0x10" "backtrace" None);
   command (list_ None None);
   command (del "0x10");
   command_save].

(** A relation between the state before and the state after that holds
    along any code: it is a preorder that writing to the terminal respects. *)
Class Frame (R : relation state) : Prop := {
  frame_refl : Reflexive R;
  frame_trans : Transitive R;
  frame_write o st : R st (write o st).2
}.

(** The code takes every state to a state related to it. *)
Definition preserves (R : relation state) {A} (c : cmd A) : Prop :=
  ∀ st, R st (c st).2.

(** No name leaves the ignore list. *)
Definition ignore_le : relation state :=
  fun st st' => backtrace_ignore st ⊆ backtrace_ignore st'.

(** A database whose records are as [add_metadata] builds them, and a state
    whose database and snapshots are so. *)
Definition wf_db (mc : list (Z * record)) : Prop :=
  Forall (fun kd => wf_record kd.2 = true) mc.

Definition wf_state (st : state) : Prop :=
  wf_db (meta_cache st)
  ∧ map_Forall (fun _ d => wf_db (snap_meta_cache d)) (files st).

Definition wf_step : relation state :=
  fun st st' => wf_state st → wf_state st'.

(** The value [add_metadata] stores under a key: a palette name for the
    color, a capture for the backtrace. *)
Definition fits (key : string) (result : pyobj) : Prop :=
  (key = "color" → ∃ c, result = PyStr c ∧ odict.mem c colorize_table = true)
  ∧ (key = "backtrace" → ∃ raw funcs, result = PyCapture raw funcs).

(** ** Relations and measures for the other properties *)

(** The command is [ptmeta -S]: no action, [-S]. *)
Definition is_save (a : Args) : bool :=
  match action a with
  | None => save a
  | Some _ => false
  end.

(** The database, the ignore list, the files are as they were. *)
Definition same_meta_cache : relation state :=
  fun st st' => meta_cache st' = meta_cache st.

Definition same_backtrace_ignore : relation state :=
  fun st st' => backtrace_ignore st' = backtrace_ignore st.

Definition same_files : relation state :=
  fun st st' => files st' = files st.

(** A dict has each key once: the database, and the databases saved in the
    files. *)
Definition distinct_state (st : state) : Prop :=
  NoDup (odict.keys (meta_cache st))
  ∧ map_Forall (fun _ d => NoDup (odict.keys (snap_meta_cache d))) (files st).

Definition distinct_step : relation state :=
  fun st st' => distinct_state st → distinct_state st'.

(** The number of colons of a name. *)
Fixpoint colons (s : string) : nat :=
  match s with
  | EmptyString => 0
  | String c s' => if decide (":"%char = c) then S (colons s') else colons s'
  end.

(** What [add_metadata] stores under the key: the capture of the debugger
    for the backtrace, the value for a color of the palette and for any
    other key; nothing for another color. *)
Definition stored (self : ptmeta) (key : string) (value : option string)
    : option pyobj :=
  if bool_decide (key = "backtrace") then
    Some (PyCapture (get_backtrace (dbg self)).1 (get_backtrace (dbg self)).2)
  else if bool_decide (key = "color") then
    if is_color value then Some (of_value value) else None
  else Some (of_value value).

(** The commands that may change the ignore list: [config] and the load;
    the commands that may change the database: [add], [del] and the load. *)
Definition changes_ignore (a : Args) : bool :=
  match action a with
  | Some (config _ _ _) => true
  | _ => is_load a
  end.

Definition changes_db (a : Args) : bool :=
  match action a with
  | Some (add _ _ _) | Some (del _) => true
  | _ => is_load a
  end.

(** The address expression of [add], [del] and [list]. *)
Definition address_arg (a : action_args) : option string :=
  match a with
  | add address _ _ | del address => Some address
  | list_ address _ => address
  | config _ _ _ => None
  end.

(** The terminal only grows. *)
Definition stdout_grows : relation state :=
  fun st st' => stdout st `prefix_of` stdout st'.

(** * Properties *)

(** ** Ordered dictionaries *)

Section odict_facts.
Context {K V : Type} `{EqDecision K}.
Implicit Types (k : K) (v : V) (d : list (K * V)).

Lemma get_set_eq k v d : odict.get k (odict.set k v d) = Some v.
Proof.
  induction d as [|[k' v'] d IH]; simpl.
  - by rewrite decide_True.
  - destruct (decide (k = k')) as [->|Hne]; simpl.
    + by rewrite decide_True.
    + by rewrite decide_False.
Qed.

Lemma get_set_ne k k' v d :
  k ≠ k' → odict.get k' (odict.set k v d) = odict.get k' d.
Proof.
  intros Hne. induction d as [|[k0 v0] d IH]; simpl.
  - by rewrite decide_False.
  - destruct (decide (k = k0)) as [->|Hk]; simpl.
    + by rewrite !decide_False.
    + by rewrite IH.
Qed.

Lemma mem_true k d : odict.mem k d = true ↔ is_Some (odict.get k d).
Proof.
  unfold odict.mem. destruct (odict.get k d); split; intros H'; eauto.
  - discriminate.
  - by destruct H'.
Qed.

Lemma mem_false k d : odict.mem k d = false ↔ odict.get k d = None.
Proof. unfold odict.mem. by destruct (odict.get k d). Qed.

Lemma mem_keys k d : odict.mem k d = true ↔ k ∈ odict.keys d.
Proof.
  unfold odict.mem, odict.keys.
  induction d as [|[k' v'] d IH]; simpl.
  - split; [discriminate | by intros ?%elem_of_nil].
  - destruct (decide (k = k')) as [->|Hne].
    + split; [intros _; left | done].
    + rewrite IH. split; [by right | by intros [?|?]%elem_of_cons].
Qed.

Lemma getitem_get k v d : odict.get k d = Some v → odict.getitem k d = Ok v.
Proof. unfold odict.getitem. by intros ->. Qed.

Lemma keys_set k v d :
  odict.keys (odict.set k v d)
  = if odict.mem k d then odict.keys d else odict.keys d ++ [k].
Proof.
  unfold odict.mem, odict.keys.
  induction d as [|[k' v'] d IH]; simpl; [done|].
  destruct (decide (k = k')) as [->|Hne]; simpl; [done|].
  rewrite IH. by destruct (odict.get k d).
Qed.

Lemma NoDup_keys_set k v d :
  NoDup (odict.keys d) → NoDup (odict.keys (odict.set k v d)).
Proof.
  intros Hd. rewrite keys_set.
  destruct (odict.mem k d) eqn:Hm; [done|].
  apply NoDup_app. split_and!; [done| |apply NoDup_singleton].
  intros x Hx ->%list_elem_of_singleton.
  apply mem_keys in Hx. congruence.
Qed.


End odict_facts.

(** ** Backtrace resolution *)

Section resolution.
Variable ignore : gset string.

Lemma kept_ignored f funcs :
  f ∈ ignore → kept ignore (f :: funcs) = kept ignore funcs.
Proof. intros Hf. unfold kept. rewrite filter_cons_False; [done | tauto]. Qed.

Lemma kept_other f funcs :
  f ∉ ignore → kept ignore (f :: funcs) = f :: kept ignore funcs.
Proof. intros Hf. unfold kept. by rewrite filter_cons_True. Qed.

Lemma get_functions_loop_None funcs L :
  get_functions_loop ignore None funcs L = L ++ kept ignore funcs.
Proof.
  revert L. induction funcs as [|f funcs IH]; intros L; simpl.
  - by rewrite app_nil_r.
  - destruct (decide (f ∈ ignore)).
    + rewrite kept_ignored by done. apply IH.
    + rewrite kept_other by done. rewrite IH.
      by rewrite <- app_assoc.
Qed.

(** A bound that the list has already reached is never met again. *)
Lemma get_functions_loop_passed n funcs L :
  n ≤ Z.of_nat (length L) →
  get_functions_loop ignore (Some n) funcs L = L ++ kept ignore funcs.
Proof.
  revert L. induction funcs as [|f funcs IH]; intros L Hn; simpl.
  - by rewrite app_nil_r.
  - destruct (decide (f ∈ ignore)).
    + rewrite kept_ignored by done. by apply IH.
    + rewrite kept_other by done.
      rewrite decide_False by (rewrite length_app; simpl; lia).
      rewrite IH by (rewrite length_app; simpl; lia).
      by rewrite <- app_assoc.
Qed.

(** Below the bound, the loop stops at the bound. *)
Lemma get_functions_loop_bound n funcs L :
  Z.of_nat (length L) < n →
  get_functions_loop ignore (Some n) funcs L
  = take (Z.to_nat n) (L ++ kept ignore funcs).
Proof.
  revert L. induction funcs as [|f funcs IH]; intros L Hn; simpl.
  - rewrite app_nil_r, take_ge; [done | lia].
  - destruct (decide (f ∈ ignore)).
    + rewrite kept_ignored by done. by apply IH.
    + rewrite kept_other by done.
      replace (L ++ f :: kept ignore funcs)
        with ((L ++ [f]) ++ kept ignore funcs)
        by (by rewrite <- app_assoc).
      destruct (decide (Z.of_nat (length (L ++ [f])) = n)) as [Heq|Hne].
      * rewrite take_app_length'; [done | lia].
      * apply IH. rewrite length_app in *. simpl in *. lia.
Qed.

End resolution.

(** ** [get_functions] *)

Lemma get_functions_capture st address d raw funcs max_len :
  odict.get address (meta_cache st) = Some d →
  odict.get "backtrace" d = Some (PyCapture raw funcs) →
  get_functions st address max_len
  = Ok (Some (get_functions_loop (backtrace_ignore st) max_len funcs [])).
Proof.
  intros Ha Hb. unfold get_functions, odict.getitem, odict.mem.
  rewrite Ha. simpl. by rewrite Hb.
Qed.

(** On a positive bound and on [-1] the code is the resolver of the
    specification; without a bound it keeps every frame. *)
Lemma get_functions_resolve st address d raw funcs n :
  odict.get address (meta_cache st) = Some d →
  odict.get "backtrace" d = Some (PyCapture raw funcs) →
  1 ≤ n ∨ n = -1 →
  get_functions st address (Some n)
  = Ok (Some (resolve_spec (backtrace_ignore st) funcs n)).
Proof.
  intros Ha Hb Hn. rewrite (get_functions_capture _ _ _ _ _ _ Ha Hb).
  do 2 f_equal. unfold resolve_spec. destruct Hn as [Hn| ->].
  - rewrite decide_False by lia.
    by rewrite get_functions_loop_bound by (simpl; lia).
  - rewrite decide_True by done.
    by rewrite get_functions_loop_passed by (simpl; lia).
Qed.

Lemma get_functions_unbounded st address d raw funcs :
  odict.get address (meta_cache st) = Some d →
  odict.get "backtrace" d = Some (PyCapture raw funcs) →
  get_functions st address None = Ok (Some (kept (backtrace_ignore st) funcs)).
Proof.
  intros Ha Hb. rewrite (get_functions_capture _ _ _ _ _ _ Ha Hb).
  by rewrite get_functions_loop_None.
Qed.

(** A bound that is not positive never stops the loop. *)
Lemma get_functions_not_positive st address d raw funcs n :
  odict.get address (meta_cache st) = Some d →
  odict.get "backtrace" d = Some (PyCapture raw funcs) →
  n ≤ 0 →
  get_functions st address (Some n) = Ok (Some (kept (backtrace_ignore st) funcs)).
Proof.
  intros Ha Hb Hn. rewrite (get_functions_capture _ _ _ _ _ _ Ha Hb).
  by rewrite get_functions_loop_passed by (simpl; lia).
Qed.

(** The scenario of the specification: two frames of three, one ignored. *)
Example resolve_0x20 :
  get_functions st_0x20 32 (Some 2) = Ok (Some ["f1"; "f3"]).
Proof. by vm_compute. Qed.

(** C2: the resolver drops the ignored frames and keeps the first
    [maxFrames] of the rest.  The code does so for a positive bound
    ([get_functions_resolve]) but not for the bound 0: the length is
    compared after the append, so it is never 0 and the whole filtered list
    comes back, where the specification's resolver gives the empty list. *)
Theorem get_functions_zero_not_truncated :
  get_functions st_0x20 32 (Some 0) = Ok (Some ["f1"; "f3"])
  ∧ resolve_spec (backtrace_ignore st_0x20) ["f1"; "f2"; "f3"] 0 = [].
Proof. split; by vm_compute. Qed.

(** ** Scenarios *)

(** A field that the record does not have: a [None] entry, [N/A] in the
    suffix and a line in the epilog. *)
Example get_metadata_nope :
  get_metadata st_0x20 32 (names ["nope"])
  = Ok (Some [PyNone], " | N/A |", "'nope' key not found in metadata database
", builtin_str).
Proof. reflexivity. Qed.

(** Without a parameter the backtrace is its first kept function. *)
Example get_metadata_first_function :
  get_metadata st_0x20 32 (names ["backtrace"])
  = Ok (Some [PyList ["f1"]], " | f1 |", "#0 f1 #1 f2 #2 f3", builtin_str).
Proof. by vm_compute. Qed.

(** Deleting an address that was never added changes nothing. *)
Example delete_never_added :
  invoke (command (del "0x10")) st_0x20 = (Ok (), st_0x20).
Proof. reflexivity. Qed.

(** An expression the debugger resolves to no address. *)
Example no_valid_address :
  invoke (command (del "nowhere")) st_0x20
  = (Ok (), {| meta_cache := meta_cache st_0x20;
               backtrace_ignore := backtrace_ignore st_0x20;
               files := files st_0x20;
               stdout := [PrintError "WARNING: No valid address supplied"; PrintHelp] |}).
Proof. reflexivity. Qed.

(** The one-line table of [ptmeta list -M "tag, backtrace:3"]. *)
Example list_table :
  stdout (run (command (list_ None (Some "tag, backtrace:3"))) st_0x20)
  = [PrintHeader "Metadata database";
     Print "| address | "; Print "tag | backtrace:3"; Print " |
";
     Print "| "; Colorized builtin_str "0x20"; Print " | N/A | f1,f3 |
";
     Print "
";
     PrintHeader "Function ignore list for backtraces";
     PPrint {["f2"]}].
Proof. by vm_compute. Qed.

(** ** [get_metadata] on an address that has no record *)

(** C5: for an address that is not in the database, whatever fields are
    asked for, [get_metadata] returns [None], the empty suffix, the epilog
    that says the address was not found, and [str]; nothing is raised. *)
Theorem get_metadata_not_found st address list_metadata :
  odict.get address (meta_cache st) = None →
  get_metadata st address list_metadata
  = Ok (None, "", "chunk address not found in metadata database
", builtin_str).
Proof.
  intros Hnone%mem_false. unfold get_metadata. by rewrite Hnone.
Qed.

Lemma get_metadata_not_found_witness :
  get_metadata st_0x20 48 (names ["tag"; "backtrace:3"])
  = Ok (None, "", "chunk address not found in metadata database
", builtin_str).
Proof. apply get_metadata_not_found. reflexivity. Defined.

(** ** The backtrace of a record that has one *)

(** C10: when the record of the address has the field ["backtrace"], the
    resolution is never [None], so an iteration of [get_metadata] on a
    ["backtrace"] spec that ends appends a list to [L] and the frames, or
    ["filtered"], to the suffix: its [N/A] branch is not taken. *)
Theorem backtrace_resolution_not_absent st address d :
  odict.get address (meta_cache st) = Some d →
  odict.mem "backtrace" d = true →
  (∀ max_len, get_functions st address max_len ≠ Ok None)
  ∧ get_first_function st address ≠ Ok None
  ∧ (∀ v key param v',
       split_key key = Ok ("backtrace", param) →
       get_metadata_step st address v key = Ok v' →
       ∃ l, L v' = L v ++ [PyList l]
            ∧ suffix v' = suffix v +:+
                match l with
                | [] => " | filtered"
                | _ => " | " +:+ pystr.join "," l
                end).
Proof.
  intros Ha Hb.
  assert (Hf : ∀ max_len, get_functions st address max_len ≠ Ok None).
  { intros max_len. unfold get_functions, odict.getitem, odict.mem in *.
    rewrite Ha. simpl. destruct (odict.get "backtrace" d) as [bt|]; [|done].
    simpl. by destruct bt. }
  split_and!; [done | apply Hf |].
  intros v key param v' Hk. unfold get_metadata_step. rewrite Hk. simpl.
  rewrite (getitem_get _ _ _ Ha). simpl. rewrite Hb. simpl.
  assert (∃ r, r = match param with
                 | Some p => n ← py_int p; get_functions st address (Some n)
                 | None => get_first_function st address
                 end ∧ r ≠ Ok None) as (r & <- & Hr).
  { eexists; split; [done|]. destruct param as [p|]; [|apply Hf].
    destruct (py_int p); simpl; [apply Hf | done]. }
  destruct r as [[l|]|e]; [|done..].
  simpl. destruct (odict.getitem "backtrace" d) as [bt|]; [|done].
  simpl. destruct (capture_raw bt); [|done].
  simpl. intros [= <-]. simpl. exists l. by destruct l.
Qed.

Lemma backtrace_resolution_not_absent_witness :
  get_first_function st_0x20 32 ≠ Ok None.
Proof.
  apply (backtrace_resolution_not_absent st_0x20 32
           [("backtrace", PyCapture "#0 f1 #1 f2 #2 f3" ["f1"; "f2"; "f3"])]);
    reflexivity.
Defined.

(** ** The write path *)

Lemma palette_length : length palette = 16%nat.
Proof. reflexivity. Qed.

Lemma set_set {K V} `{EqDecision K} (k : K) (v v' : V) (d : list (K * V)) :
  odict.set k v (odict.set k v' d) = odict.set k v d.
Proof.
  induction d as [|[k0 v0] d IH]; simpl.
  - by rewrite decide_True.
  - destruct (decide (k = k0)) as [->|Hne]; simpl.
    + by rewrite decide_True.
    + rewrite decide_False by done. by rewrite IH.
Qed.

(** [store] puts the value in the record of the address, which is created
    when it is missing, and touches nothing else. *)
Lemma store_spec address key result st :
  store address key result st
  = (Ok (),
     {| meta_cache :=
          odict.set address
            (odict.set key result (default [] (odict.get address (meta_cache st))))
            (meta_cache st);
        backtrace_ignore := backtrace_ignore st;
        files := files st;
        stdout := stdout st |}).
Proof.
  unfold store, mbind, cmd_bind, get_state, when, lift, set_meta_cache,
    odict.getitem, odict.mem.
  destruct (odict.get address (meta_cache st)) as [d|] eqn:Hd; simpl.
  - by rewrite Hd.
  - rewrite get_set_eq. simpl. by rewrite set_set.
Qed.


Lemma is_color_palette value :
  is_color value = false ↔ ∀ c, value = Some c → c ∉ palette.
Proof.
  unfold is_color, palette. destruct value as [c|].
  - split.
    + intros Hm c' [= <-] Hin%mem_keys. congruence.
    + intros Hc. destruct (odict.mem c colorize_table) eqn:Hm; [|done].
      apply mem_keys in Hm. by destruct (Hc c).
  - split; [by intros _ c [=] | done].
Qed.

(** C4: a value that is not one of the sixteen names of the palette is
    refused as a color: an error is printed and the database, the ignore
    list and the files are as before.  In particular after the color
    ["green"] was added, adding ["ultraviolet"] leaves ["green"]. *)
Theorem add_color_rejected self address value st :
  (∀ c, value = Some c → c ∉ palette) →
  (let '(r, st') := add_metadata self address "color" value st in
   r = Ok ()
   ∧ meta_cache st' = meta_cache st
   ∧ backtrace_ignore st' = backtrace_ignore st
   ∧ files st' = files st
   ∧ ∃ msg, last (stdout st') = Some (PrintError msg))
  ∧ (let green := (add_metadata self address "color" (Some "green") st).2 in
     let st' := (add_metadata self address "color" (Some "ultraviolet") green).2 in
     odict.get address (meta_cache st') ≫= odict.get "color" = Some (PyStr "green")).
Proof.
  intros Hv%is_color_palette. split.
  - unfold add_metadata. rewrite Hv. simpl.
    unfold mbind, cmd_bind, when, print, write.
    destruct (bool_decide _); simpl; split_and!; try done;
      eexists; by rewrite last_snoc.
  - unfold add_metadata. simpl.
    unfold mbind at 2 3, cmd_bind, when, print, write.
    destruct (bool_decide _); simpl; rewrite store_spec; simpl;
      rewrite get_set_eq; simpl; by rewrite get_set_eq.
Qed.

Lemma add_color_rejected_witness :
  (let '(r, st') := add_metadata (command (add "0x10" "color" (Some "ultraviolet")))
                      16 "color" (Some "ultraviolet") initial in
   r = Ok ()
   ∧ meta_cache st' = meta_cache initial
   ∧ backtrace_ignore st' = backtrace_ignore initial
   ∧ files st' = files initial
   ∧ ∃ msg, last (stdout st') = Some (PrintError msg))
  ∧ (let green := (add_metadata (command (add "0x10" "color" (Some "ultraviolet")))
                     16 "color" (Some "green") initial).2 in
     let st' := (add_metadata (command (add "0x10" "color" (Some "ultraviolet")))
                   16 "color" (Some "ultraviolet") green).2 in
     odict.get 16 (meta_cache st') ≫= odict.get "color" = Some (PyStr "green")).
Proof.
  apply add_color_rejected.
  intros c [= <-]. apply (bool_decide_unpack _). by vm_compute.
Defined.

(** C6: [configure_metadata] adds the values to the ignore list for the
    feature ["ignore"] of the key ["backtrace"]; for any other feature or
    key it prints that the feature, or the key, is not supported and leaves
    the ignore list as it is.  The database and the files never change. *)
Theorem configure_metadata_effect self feature key values st :
  let '(r, st') := configure_metadata self feature key values st in
  r = Ok ()
  ∧ meta_cache st' = meta_cache st
  ∧ files st' = files st
  ∧ if bool_decide (feature = "ignore" ∧ key = "backtrace") then
      backtrace_ignore st' = backtrace_ignore st ∪ list_to_set values
      ∧ Forall (fun o => ∀ msg, o ≠ PrintError msg)
               (drop (length (stdout st)) (stdout st'))
    else
      backtrace_ignore st' = backtrace_ignore st
      ∧ last (stdout st')
        = Some (PrintError (if bool_decide (key = "backtrace")
                            then "WARNING: Unsupported feature"
                            else "WARNING: Unsupported key")).
Proof.
  unfold configure_metadata, mbind, cmd_bind, when, print, write, get_state,
    set_backtrace_ignore.
  destruct (bool_decide (1 ≤ verbose (args self))%nat); simpl;
    repeat case_bool_decide; simpl; split_and!;
    rewrite ?last_snoc, ?drop_app_length, ?drop_all; try done;
    try (exfalso; tauto); repeat constructor; done.
Qed.

(** C7: the value of [add] is required for every key but ["backtrace"].
    The parser makes it optional and [add_metadata] does not test it:
    [ptmeta add 0x10 tag] creates the record of 0x10 with the field ["tag"]
    set to [None] and prints no error. *)
Theorem add_without_value_stores_None :
  invoke (command (add "0x10" "tag" None)) initial
  = (Ok (),
     {| meta_cache := [(16, [("tag", PyNone)])];
        backtrace_ignore := ∅; files := ∅; stdout := [] |}).
Proof. reflexivity. Qed.

(** Only the color is refused without a value. *)
Example add_color_without_value :
  invoke (command (add "0x10" "color" None)) initial
  = (Ok (),
     {| meta_cache := []; backtrace_ignore := ∅; files := ∅;
        stdout := [PrintError ("ERROR: Unsupported color. Need one of: "
                               +:+ pystr.join ", " palette)] |}).
Proof. reflexivity. Qed.

(** ** Adding a field, then asking for it *)

Lemma add_metadata_plain self address key value st :
  key ≠ "color" → key ≠ "backtrace" →
  meta_cache (add_metadata self address key value st).2
  = odict.set address
      (odict.set key (of_value value) (default [] (odict.get address (meta_cache st))))
      (meta_cache st).
Proof.
  intros Hc Hb. unfold add_metadata.
  rewrite !bool_decide_eq_false_2 by done.
  unfold mbind, cmd_bind, when, print, write.
  destruct (bool_decide _); simpl; by rewrite store_spec.
Qed.

Lemma split_key_plain key :
  pystr.contains ":" key = false → split_key key = Ok (key, None).
Proof. unfold split_key. by intros ->. Qed.

(** C3, as the code has it: after [add_metadata] of a key that is not
    ["color"], not ["backtrace"] and has no colon, [get_metadata] of that
    key alone returns the value as the only entry of the list (and in the
    suffix and the epilog).  A key with a colon is stored as it is but read
    as [name:param]. *)
Theorem add_then_get self address key value st :
  key ≠ "color" → key ≠ "backtrace" → pystr.contains ":" key = false →
  get_metadata (add_metadata self address key value st).2 address (names [key])
  = Ok (Some [of_value value],
        " | " +:+ py_str (of_value value) +:+ " |",
        py_str (of_value value) +:+ "
",
        builtin_str).
Proof.
  intros Hc Hb Hcolon.
  pose proof (add_metadata_plain self address key value st Hc Hb) as Hmc.
  set (st' := (add_metadata self address key value st).2) in *.
  set (d' := odict.set key (of_value value) _) in Hmc.
  assert (Ha : odict.get address (meta_cache st') = Some d').
  { rewrite Hmc. apply get_set_eq. }
  assert (Hk : odict.get key d' = Some (of_value value)) by apply get_set_eq.
  unfold get_metadata, odict.mem. rewrite Ha. simpl.
  unfold get_metadata_step. rewrite split_key_plain by done. simpl.
  rewrite (getitem_get _ _ _ Ha). simpl.
  unfold odict.mem. rewrite Hk. simpl.
  rewrite !bool_decide_eq_false_2 by done.
  by rewrite (getitem_get _ _ _ Hk).
Qed.

Lemma add_then_get_witness :
  get_metadata
    (add_metadata (command (add "0x10" "tag" (Some "service_user struct"))) 16
       "tag" (Some "service_user struct") initial).2
    16 (names ["tag"])
  = Ok (Some [PyStr "service_user struct"],
        " | service_user struct |", "service_user struct
", builtin_str).
Proof.
  apply (add_then_get (command (add "0x10" "tag" (Some "service_user struct")))
           16 "tag" (Some "service_user struct") initial); by vm_compute.
Defined.

(** The key ["tag:1"] is neither ["color"] nor ["backtrace"] and is added,
    but asking for it looks the field ["tag"] up. *)
Lemma add_then_get_colon :
  "tag:1" ≠ "color" ∧ "tag:1" ≠ "backtrace"
  ∧ add_metadata (command (add "0x10" "tag:1" (Some "v"))) 16 "tag:1" (Some "v") initial
    = (Ok (), {| meta_cache := [(16, [("tag:1", PyStr "v")])];
                 backtrace_ignore := ∅; files := ∅; stdout := [] |})
  ∧ ¬ sole_entry_after_add (command (add "0x10" "tag:1" (Some "v"))) initial 16
        "tag:1" (Some "v").
Proof.
  split_and!; [done | done | reflexivity |].
  intros (s & e & f & H). vm_compute in H. discriminate H.
Qed.

(** ** Asking for the color only *)

Lemma colorize_table_getitem_ok d :
  color_ok d = true →
  match odict.get "color" d with
  | Some color => colorize_table_getitem color = Ok (color_of d)
  | None => color_of d = builtin_str
  end.
Proof.
  unfold color_ok, color_of.
  destruct (odict.get "color" d) as [[|c| |]|]; try done.
  intros [f Hf]%mem_true.
  unfold colorize_table_getitem, odict.getitem. rewrite Hf. reflexivity.
Qed.

(** C9, as the code has it: for an address that has a record, asking for
    ["color"] alone gives the empty list, the empty suffix and the empty
    epilog, whether the record has a color or not; a color of the palette
    only selects the colorizer.  (Without a record the list is [None] and
    the epilog says that the address was not found.) *)
Theorem get_metadata_color_only st address d :
  odict.get address (meta_cache st) = Some d →
  color_ok d = true →
  get_metadata st address (names ["color"]) = Ok (Some [], "", "", color_of d).
Proof.
  intros Ha Hc%colorize_table_getitem_ok.
  unfold get_metadata, odict.mem. rewrite Ha. simpl.
  unfold get_metadata_step. simpl. rewrite (getitem_get _ _ _ Ha). simpl.
  unfold odict.mem, odict.getitem.
  destruct (odict.get "color" d) as [color|]; simpl.
  - by rewrite Hc.
  - by rewrite Hc.
Qed.

Lemma get_metadata_color_only_witness :
  get_metadata
    {| meta_cache := [(16, [("tag", PyStr "x"); ("color", PyStr "green")])];
       backtrace_ignore := ∅; files := ∅; stdout := [] |}
    16 (names ["color"])
  = Ok (Some [], "", "", pu green).
Proof.
  apply (get_metadata_color_only _ 16 [("tag", PyStr "x"); ("color", PyStr "green")]);
    reflexivity.
Defined.

(** No record, no list: the address was never added. *)
Lemma color_only_without_record : ¬ color_only_is_empty initial 16.
Proof. intros (e & f & H). vm_compute in H. discriminate H. Qed.

(** ** Asking for all the fields *)

Section all_fields.
Variables (st : state) (address : Z) (d : record).
Hypothesis Haddress : odict.get address (meta_cache st) = Some d.

Lemma get_metadata_loop_app v l1 l2 :
  get_metadata_loop st address v (l1 ++ l2)
  = v' ← get_metadata_loop st address v l1; get_metadata_loop st address v' l2.
Proof.
  revert v. induction l1 as [|key l1 IH]; intros v; simpl; [done|].
  destruct (get_metadata_step st address v key); simpl; [apply IH | done].
Qed.

Lemma get_metadata_step_plain v key x :
  pystr.contains ":" key = false → key ≠ "backtrace" → key ≠ "color" →
  odict.get key d = Some x →
  get_metadata_step st address v key
  = Ok {| L := L v ++ [x];
          suffix := suffix v +:+ " | " +:+ py_str x;
          epilog := epilog v +:+ py_str x +:+ "
";
          colorize_func := colorize_func v;
          opened := true |}.
Proof.
  intros Hcolon Hb Hc Hx. unfold get_metadata_step.
  rewrite split_key_plain by done. simpl.
  rewrite (getitem_get _ _ _ Haddress). simpl.
  unfold odict.mem. rewrite Hx. simpl.
  rewrite !bool_decide_eq_false_2 by done.
  by rewrite (getitem_get _ _ _ Hx).
Qed.

Lemma get_metadata_step_color v :
  color_ok d = true → is_Some (odict.get "color" d) →
  get_metadata_step st address v "color"
  = Ok {| L := L v; suffix := suffix v; epilog := epilog v;
          colorize_func := color_of d; opened := opened v |}.
Proof.
  intros Hok%colorize_table_getitem_ok [x Hx]. unfold get_metadata_step. simpl.
  rewrite (getitem_get _ _ _ Haddress). simpl.
  unfold odict.mem. rewrite Hx in *. simpl.
  rewrite (getitem_get _ _ _ Hx). simpl. by rewrite Hok.
Qed.

Lemma get_metadata_step_backtrace_all v raw funcs :
  odict.get "backtrace" d = Some (PyCapture raw funcs) →
  ∃ v', get_metadata_step st address v "backtrace:-1" = Ok v'
        ∧ L v' = L v ++ [PyList (kept (backtrace_ignore st) funcs)]
        ∧ colorize_func v' = colorize_func v.
Proof.
  intros Hb. unfold get_metadata_step.
  change (split_key "backtrace:-1") with (Ok ("backtrace", Some "-1")). simpl.
  rewrite (getitem_get _ _ _ Haddress). simpl.
  unfold odict.mem. rewrite Hb. simpl.
  change (py_int "-1") with (Ok (-1)). simpl.
  rewrite (get_functions_resolve _ _ _ _ _ _ Haddress Hb) by (by right).
  simpl. rewrite (getitem_get _ _ _ Hb). simpl.
  eexists; split_and!; done.
Qed.

(** The loop over field names that are in the record, have no colon and
    are not the backtrace. *)
Lemma get_metadata_loop_fields (ps : record) v :
  color_ok d = true →
  (∀ k x, (k, x) ∈ ps →
     odict.get k d = Some x ∧ pystr.contains ":" k = false ∧ k ≠ "backtrace") →
  ∃ v', get_metadata_loop st address v (odict.keys ps) = Ok v'
        ∧ L v' = L v ++ odict.values (filter plain ps)
        ∧ colorize_func v'
          = if bool_decide ("color" ∈ odict.keys ps) then color_of d
            else colorize_func v.
Proof.
  intros Hok. revert v. induction ps as [|[k x] ps IH]; intros v Hps.
  - exists v. simpl. by rewrite app_nil_r.
  - pose proof (fun v' => IH v' (fun k x H => Hps k x (list_elem_of_further _ _ _ H)))
      as IH'.
    destruct (Hps k x) as (Hx & Hcolon & Hb); [left|].
    simpl. destruct (decide (k = "color")) as [->|Hc].
    + rewrite get_metadata_step_color by eauto. simpl.
      destruct (IH' {| L := L v; suffix := suffix v; epilog := epilog v;
                       colorize_func := color_of d; opened := opened v |})
        as (v' & -> & HL & Hf).
      exists v'. split_and!; [done | |].
      * rewrite HL. simpl. rewrite filter_cons_False; [done|].
        unfold plain. simpl. tauto.
      * rewrite Hf. simpl. by destruct (bool_decide _).
    + rewrite (get_metadata_step_plain v k x) by done. simpl.
      match goal with |- context [get_metadata_loop _ _ ?v1 _] =>
        destruct (IH' v1) as (v' & -> & HL & Hf) end.
      exists v'. split_and!; [done | |].
      * rewrite HL. simpl. rewrite filter_cons_True by done.
        simpl. by rewrite <- app_assoc.
      * rewrite Hf. simpl.
        rewrite (bool_decide_ext ("color" ∈ k :: odict.keys ps) ("color" ∈ odict.keys ps));
          [done|].
        rewrite elem_of_cons. split; [intros [?|?]; congruence || done | tauto].
Qed.

End all_fields.

Section record_facts.
Context {K V : Type} `{EqDecision K}.
Implicit Types (k : K) (d : list (K * V)).

Lemma elem_keys k d : k ∈ odict.keys d ↔ ∃ x, (k, x) ∈ d.
Proof.
  unfold odict.keys. induction d as [|[k' x'] d IH]; simpl.
  - split; [by intros ?%elem_of_nil | by intros [x ?%elem_of_nil]].
  - rewrite elem_of_cons, IH. split.
    + intros [->|[x Hx]]; [exists x'; left | exists x; by right].
    + intros [x [[= -> ->]|Hx]%elem_of_cons]; [by left | right; eauto].
Qed.

Lemma get_None_keys k d : odict.get k d = None ↔ k ∉ odict.keys d.
Proof.
  rewrite <- mem_false, <- mem_keys. by destruct (odict.mem k d).
Qed.

(** In a dict, a key has one value: the one [get] finds. *)
Lemma NoDup_get k x d :
  NoDup (odict.keys d) → (k, x) ∈ d → odict.get k d = Some x.
Proof.
  induction d as [|[k' x'] d IH]; simpl.
  - by intros _ ?%elem_of_nil.
  - intros [Hk' Hd]%NoDup_cons [[= -> ->]|Hin]%elem_of_cons.
    + by rewrite decide_True.
    + rewrite decide_False; [by apply IH|].
      intros ->. apply Hk', elem_keys. eauto.
Qed.

Lemma filter_keys_notin k d :
  k ∉ odict.keys d → filter (fun kv : K * V => kv.1 ≠ k) d = d.
Proof.
  induction d as [|[k' x'] d IH]; simpl; [done|].
  intros [Hne Hd]%not_elem_of_cons.
  rewrite filter_cons_True by (simpl; congruence). by rewrite IH.
Qed.

End record_facts.

(** Removing a key from the list of the keys. *)
Lemma list_remove_keys (b : string) (d : record) :
  NoDup (odict.keys d) →
  list_remove b (odict.keys d) = odict.keys (filter (fun kv => kv.1 ≠ b) d).
Proof.
  induction d as [|[k x] d IH]; simpl; [done|].
  intros [Hk Hd]%NoDup_cons. destruct (decide (b = k)) as [->|Hne].
  - rewrite filter_cons_False by (simpl; tauto).
    by rewrite filter_keys_notin.
  - rewrite filter_cons_True by (simpl; congruence). simpl. by rewrite IH.
Qed.

Lemma color_of_absent (d : record) :
  "color" ∉ odict.keys d → color_of d = builtin_str.
Proof. intros Hc%get_None_keys. unfold color_of. by rewrite Hc. Qed.

Lemma no_colon_key (d : record) k :
  no_colon d = true → k ∈ odict.keys d → pystr.contains ":" k = false.
Proof.
  unfold no_colon. rewrite forallb_forall. intros Hd Hk%list_elem_of_In.
  apply Hd in Hk. by destruct (pystr.contains ":" k).
Qed.

(** C1, as the code has it: for a record as [add_metadata] builds it, no
    field name having a colon, ["all"] gives the values of the fields other
    than the color and the backtrace, in insertion order, and then, when
    the record has a backtrace, all its kept frames as the last entry
    wherever the backtrace was inserted; the color gives no entry and
    selects the colorizer. *)
Theorem get_metadata_all st address d :
  odict.get address (meta_cache st) = Some d →
  wf_record d = true →
  no_colon d = true →
  ∃ s e,
    get_metadata st address all
    = Ok (Some (all_entries (backtrace_ignore st) d), s, e, color_of d).
Proof.
  intros Ha [[Hnodup%bool_decide_eq_true_1 Hc]%andb_prop Hb]%andb_prop Hcolon.
  unfold get_metadata, odict.mem. rewrite Ha. simpl.
  rewrite (getitem_get _ _ _ Ha). simpl.
  unfold expand_all, list_mem, all_entries, backtrace_ok in *.
  destruct (odict.get "backtrace" d) as [bt|] eqn:Hbt.
  - destruct bt as [| | |raw funcs]; try done.
    rewrite bool_decide_eq_true_2
      by (apply mem_keys, mem_true; by rewrite Hbt).
    rewrite list_remove_keys, get_metadata_loop_app by done.
    edestruct (get_metadata_loop_fields st address d Ha
                 (filter (fun kv => kv.1 ≠ "backtrace") d)) as (v1 & -> & HL1 & Hf1);
      [done| |].
    { intros k x [Hk Hin]%list_elem_of_filter. split_and!; [by apply NoDup_get| |done].
      eapply no_colon_key; [done|]. apply elem_keys. eauto. }
    simpl.
    destruct (get_metadata_step_backtrace_all st address d Ha v1 raw funcs Hbt)
      as (v2 & -> & HL2 & Hf2).
    simpl. do 2 eexists. repeat f_equal.
    + rewrite HL2, HL1. simpl. do 2 f_equal.
      rewrite list_filter_filter. apply list_filter_iff.
      unfold plain. intros [k x]. simpl. tauto.
    + rewrite Hf2, Hf1. simpl. case_bool_decide as Hin; [done|].
      symmetry. apply color_of_absent. intros [x Hx]%elem_keys.
      apply Hin, elem_keys. exists x. by apply list_elem_of_filter.
  - rewrite bool_decide_eq_false_2 by (by apply get_None_keys).
    edestruct (get_metadata_loop_fields st address d Ha d) as (v1 & -> & HL1 & Hf1);
      [done| |].
    { intros k x Hin. pose proof (NoDup_get _ _ _ Hnodup Hin) as Hx.
      split_and!; [done | | congruence].
      eapply no_colon_key; [done|]. apply elem_keys. eauto. }
    simpl. do 2 eexists. repeat f_equal.
    + rewrite HL1. simpl. by rewrite app_nil_r.
    + rewrite Hf1. simpl. case_bool_decide as Hin; [done|].
      symmetry. by apply color_of_absent.
Qed.

Lemma get_metadata_all_witness :
  ∃ s e,
    get_metadata st_backtrace_first 16 all
    = Ok (Some [PyStr "x"; PyList ["work"; "main"]], s, e, builtin_str).
Proof.
  exact (get_metadata_all st_backtrace_first 16
           [("backtrace", PyCapture "#0 work #1 main" ["work"; "main"]);
            ("tag", PyStr "x")] eq_refl eq_refl eq_refl).
Defined.

(** ["all"] is not the record in insertion order: the backtrace goes last,
    the color gives no entry, and a name with a colon is read as
    [name:param]. *)
Lemma all_not_in_insertion_order :
  ¬ all_fields_in_order st_backtrace_first 16
  ∧ ¬ all_fields_in_order st_colored 16
  ∧ ¬ all_fields_in_order st_colon 16.
Proof.
  split_and!; intros H; destruct (H _ eq_refl) as (s & e & f & Heq);
    vm_compute in Heq; discriminate Heq.
Qed.

(** ** Code that reads and prints *)

Section frame.
Context (R : relation state) `{!Frame R}.

Lemma preserves_ret {A} (a : A) : preserves R (mret a).
Proof. intros st. apply frame_refl. Qed.

Lemma preserves_bind {A B} (c : cmd A) (f : A → cmd B) :
  preserves R c → (∀ a, preserves R (f a)) → preserves R (c ≫= f).
Proof.
  intros Hc Hf st. specialize (Hc st). unfold mbind, cmd_bind.
  destruct (c st) as [[a|e] st']; simpl in *; [|done].
  eapply frame_trans; [done | apply Hf].
Qed.

Lemma preserves_get_state : preserves R get_state.
Proof. intros st. apply frame_refl. Qed.

Lemma preserves_lift {A} (o : outcome A) : preserves R (lift o).
Proof. intros st. apply frame_refl. Qed.

Lemma preserves_write o : preserves R (write o).
Proof. intros st. apply frame_write. Qed.

Lemma preserves_when b c : preserves R c → preserves R (when b c).
Proof. intros Hc. destruct b; [done | apply preserves_ret]. Qed.

Lemma preserves_print s : preserves R (print s).
Proof. apply preserves_write. Qed.

Lemma preserves_print_noend s : preserves R (print_noend s).
Proof. apply preserves_write. Qed.

Lemma preserves_with_address self text k :
  (∀ address, preserves R (k address)) → preserves R (with_address self text k).
Proof.
  intros Hk. unfold with_address.
  destruct (parse_address _ _); [|apply Hk].
  apply preserves_bind; [|intros _]; apply preserves_write.
Qed.

End frame.

(** The steps that any frame allows. *)
Ltac frame :=
  repeat match goal with
    | |- preserves ?R (mret _) => apply (preserves_ret R)
    | |- preserves ?R get_state => apply (preserves_get_state R)
    | |- preserves ?R (lift _) => apply (preserves_lift R)
    | |- preserves ?R (write _) => apply (preserves_write R)
    | |- preserves ?R (print _) => apply (preserves_print R)
    | |- preserves ?R (print_noend _) => apply (preserves_print_noend R)
    | |- preserves ?R (when _ _) => apply (preserves_when R)
    | |- preserves ?R (_ ≫= _) => apply (preserves_bind R); [|intros ?]
    | |- preserves _ (if ?b then _ else _) => destruct b
    | |- preserves _ (match ?x with _ => _ end) => destruct x
    end.

Section listing.
Context (R : relation state) `{!Frame R}.

Lemma preserves_list_lines address list_metadata items :
  preserves R (list_lines address list_metadata items).
Proof.
  induction items as [|[k d] items IH]; simpl; [frame|].
  apply (preserves_bind R); [|done]. destruct (bool_decide _); frame.
Qed.

Lemma preserves_list_blocks address list_metadata items :
  preserves R (list_blocks address list_metadata items).
Proof.
  induction items as [|[k d] items IH]; simpl; [frame|].
  apply (preserves_bind R); [|done]. destruct (bool_decide _); frame.
Qed.

(** [list_metadata] only reads and prints. *)
Lemma preserves_list_metadata self address :
  preserves R (list_metadata self address).
Proof.
  unfold list_metadata.
  frame; apply preserves_list_lines || apply preserves_list_blocks.
Qed.

End listing.

(** ** The ignore list along a session *)

#[global] Instance ignore_le_frame : Frame ignore_le.
Proof. split; unfold ignore_le; [by intros st | intros st1 st2 st3; set_solver | done]. Qed.

Lemma grows_set_meta_cache mc : preserves ignore_le (set_meta_cache mc).
Proof. intros st. by unfold ignore_le. Qed.

Lemma grows_set_files fs : preserves ignore_le (set_files fs).
Proof. intros st. by unfold ignore_le. Qed.

Lemma grows_configure_metadata self feature key values :
  preserves ignore_le (configure_metadata self feature key values).
Proof.
  unfold configure_metadata.
  apply (preserves_bind ignore_le); [frame|intros _].
  repeat case_bool_decide; [|frame..].
  intros st. unfold ignore_le. simpl. apply union_subseteq_l.
Qed.

Lemma grows_delete_metadata self address :
  preserves ignore_le (delete_metadata self address).
Proof. unfold delete_metadata. frame. apply grows_set_meta_cache. Qed.

Lemma grows_store address key result : preserves ignore_le (store address key result).
Proof. unfold store. frame; apply grows_set_meta_cache. Qed.

Lemma grows_add_metadata self address key value :
  preserves ignore_le (add_metadata self address key value).
Proof. unfold add_metadata. frame; apply grows_store. Qed.

Lemma grows_save_metadata_to_file filename :
  preserves ignore_le (save_metadata_to_file filename).
Proof. unfold save_metadata_to_file. frame. apply grows_set_files. Qed.

(** Every command but the load keeps the names of the ignore list. *)
Lemma grows_invoke self :
  is_load (args self) = false → preserves ignore_le (invoke self).
Proof.
  unfold invoke, is_load.
  destruct (action (args self)) as [[text key value|text|[text|] metadata|feature key values]|].
  - intros _. apply (preserves_with_address ignore_le). intros address.
    apply grows_add_metadata.
  - intros _. apply (preserves_with_address ignore_le). intros address.
    apply grows_delete_metadata.
  - intros _. apply (preserves_with_address ignore_le). intros address.
    apply (preserves_list_metadata ignore_le).
  - intros _. apply (preserves_list_metadata ignore_le).
  - intros _. apply grows_configure_metadata.
  - destruct (save (args self)), (load (args self)); simpl; try done; intros _;
      frame; apply grows_save_metadata_to_file.
Qed.

(** The ignore list after [configure_metadata]. *)
Lemma configure_metadata_ignore self feature key values st :
  backtrace_ignore (configure_metadata self feature key values st).2
  = if bool_decide (feature = "ignore" ∧ key = "backtrace")
    then backtrace_ignore st ∪ list_to_set values
    else backtrace_ignore st.
Proof.
  unfold configure_metadata, mbind, cmd_bind, when, print, write, get_state,
    set_backtrace_ignore.
  destruct (bool_decide (1 ≤ verbose (args self))%nat); simpl;
    repeat case_bool_decide; simpl; try done; exfalso; tauto.
Qed.

(** The load puts the ignore list of the snapshot in place. *)
Lemma load_replaces self st d :
  is_load (args self) = true →
  files st !! METADATA_DB = Some d →
  backtrace_ignore (run self st) = snap_backtrace_ignore d
  ∧ meta_cache (run self st) = snap_meta_cache d.
Proof.
  unfold is_load, run, invoke.
  destruct (action (args self)); [done|].
  destruct (save (args self)), (load (args self)); try done. simpl.
  intros _ Hd. unfold print, write, load_metadata_from_file, get_state,
    mbind, cmd_bind. simpl. by rewrite Hd.
Qed.

(** C8, as the code has it: along the commands of a session that are not a
    load ([add], [del], [list], [config], the save, a command without
    action) the ignore list only grows, and configuring names that are
    already ignored changes nothing.  A load replaces the ignore list by
    the one of the snapshot ([load_replaces]). *)
Theorem ignore_list_monotone cmds st :
  Forall (fun self => is_load (args self) = false) cmds →
  backtrace_ignore st ⊆ backtrace_ignore (session cmds st)
  ∧ ∀ self feature key values,
      list_to_set values ⊆ backtrace_ignore st →
      backtrace_ignore (configure_metadata self feature key values st).2
      = backtrace_ignore st.
Proof.
  intros Hcmds. split.
  - revert st. induction Hcmds as [|self cmds Hself _ IH]; intros st; simpl; [done|].
    etrans; [|apply IH]. by apply grows_invoke.
  - intros self feature key values Hvalues.
    rewrite configure_metadata_ignore. case_bool_decide; [|done].
    rewrite (comm_L (∪)). by apply subseteq_union_1_L.
Qed.

Lemma ignore_list_monotone_witness :
  backtrace_ignore st_0x20 ⊆ backtrace_ignore (session a_session st_0x20).
Proof.
  refine (proj1 (ignore_list_monotone a_session st_0x20 _)).
  repeat constructor.
Defined.

(** A save, [config ignore backtrace free], then a load: the load takes
    ["free"] out of the ignore list. *)
Lemma load_shrinks_ignore_list : ¬ ignore_never_shrinks.
Proof.
  intros H.
  specialize (H [command_save; command (config "ignore" "backtrace" ["free"])]
                command_load).
  assert (Hout : "free" ∉ backtrace_ignore
            (run command_load
               (session [command_save; command (config "ignore" "backtrace" ["free"])]
                  initial)))
    by (apply (bool_decide_unpack _); by vm_compute).
  apply Hout, H. apply (bool_decide_unpack _). by vm_compute.
Qed.

(** ** The records of a session are as [add_metadata] builds them *)

#[global] Instance wf_step_frame : Frame wf_step.
Proof. split; unfold wf_step; [by intros st | by auto | by intros o st [??]]. Qed.

Lemma wf_record_set key result d :
  wf_record d = true → fits key result →
  wf_record (odict.set key result d) = true.
Proof.
  unfold wf_record.
  intros [[Hnodup%bool_decide_eq_true_1 Hc]%andb_prop Hb]%andb_prop [Hfc Hfb].
  rewrite !andb_true_iff. split_and!.
  - apply bool_decide_eq_true_2. by apply NoDup_keys_set.
  - unfold color_ok in *. destruct (decide (key = "color")) as [->|Hne].
    + rewrite get_set_eq. by destruct Hfc as (c & -> & Hm).
    + by rewrite get_set_ne.
  - unfold backtrace_ok in *. destruct (decide (key = "backtrace")) as [->|Hne].
    + rewrite get_set_eq. by destruct Hfb as (raw & funcs & ->).
    + by rewrite get_set_ne.
Qed.

Lemma wf_db_get mc address d :
  wf_db mc → odict.get address mc = Some d → wf_record d = true.
Proof.
  unfold wf_db. induction 1 as [|[k d'] mc Hd _ IH]; simpl; [done|].
  destruct (decide (address = k)); [by intros [= <-] | done].
Qed.

Lemma wf_db_set mc address d :
  wf_db mc → wf_record d = true → wf_db (odict.set address d mc).
Proof.
  unfold wf_db. intros Hmc Hd. induction Hmc as [|[k d'] mc Hd' Hmc IH]; simpl.
  - by repeat constructor.
  - destruct (decide (address = k)); by constructor.
Qed.

Lemma wf_db_del mc address : wf_db mc → wf_db (odict.del address mc).
Proof.
  unfold wf_db. induction 1 as [|[k d'] mc Hd' Hmc IH]; simpl; [done|].
  destruct (decide (address = k)); [done | by constructor].
Qed.

Lemma wf_store address key result :
  fits key result → preserves wf_step (store address key result).
Proof.
  intros Hfits st [Hmc Hfs]. rewrite store_spec. split; [|done]. simpl.
  apply wf_db_set; [done|]. apply wf_record_set; [|done].
  destruct (odict.get address (meta_cache st)) as [d|] eqn:Hd; simpl; [|done].
  by eapply wf_db_get.
Qed.

Lemma fits_plain key result : key ≠ "color" → key ≠ "backtrace" → fits key result.
Proof. by intros Hc Hb; split. Qed.

Lemma wf_add_metadata self address key value :
  preserves wf_step (add_metadata self address key value).
Proof.
  unfold add_metadata. apply (preserves_bind wf_step); [frame|intros _].
  case_bool_decide as Hb; [|case_bool_decide as Hc].
  - destruct (get_backtrace (dbg self)) as [raw funcs]. apply wf_store.
    split; [by subst | eauto].
  - destruct (is_color value) eqn:Hv; simpl; [|frame].
    apply wf_store. split; [|done]. intros _.
    destruct value as [c|]; [|done]. by exists c.
  - by apply wf_store, fits_plain.
Qed.

Lemma wf_delete_metadata self address :
  preserves wf_step (delete_metadata self address).
Proof.
  intros st [Hmc Hfs].
  unfold delete_metadata, get_state, when, print, write, set_meta_cache,
    mbind, cmd_bind. simpl.
  destruct (odict.mem address (meta_cache st)); simpl; [|done].
  destruct (bool_decide _); simpl; split; simpl; by try apply wf_db_del.
Qed.

Lemma wf_configure_metadata self feature key values :
  preserves wf_step (configure_metadata self feature key values).
Proof.
  intros st [Hmc Hfs].
  unfold configure_metadata, get_state, when, print, write, set_backtrace_ignore,
    mbind, cmd_bind.
  destruct (bool_decide (1 ≤ _)%nat); simpl; by repeat case_bool_decide.
Qed.

Lemma wf_save_metadata_to_file filename :
  preserves wf_step (save_metadata_to_file filename).
Proof.
  intros st [Hmc Hfs]. split; [done|]. simpl. by apply map_Forall_insert_2.
Qed.

Lemma wf_load_metadata_from_file filename :
  preserves wf_step (load_metadata_from_file filename).
Proof.
  intros st [Hmc Hfs].
  unfold load_metadata_from_file, get_state, set_meta_cache, set_backtrace_ignore,
    lift, mbind, cmd_bind. simpl.
  destruct (files st !! filename) as [d|] eqn:Hd; simpl; [|done].
  split; [|done]. simpl. by eapply Hfs.
Qed.

Lemma wf_invoke self : preserves wf_step (invoke self).
Proof.
  unfold invoke.
  destruct (action (args self)) as [[text key value|text|[text|] metadata|feature key values]|].
  - apply (preserves_with_address wf_step). intros address. apply wf_add_metadata.
  - apply (preserves_with_address wf_step). intros address. apply wf_delete_metadata.
  - apply (preserves_with_address wf_step). intros address.
    apply (preserves_list_metadata wf_step).
  - apply (preserves_list_metadata wf_step).
  - apply wf_configure_metadata.
  - frame; apply wf_save_metadata_to_file || apply wf_load_metadata_from_file.
Qed.

(** Whatever the commands, loads included, every record of the database
    has distinct field names, a palette name as its color and a capture as
    its backtrace. *)
Lemma wf_session cmds st : wf_state st → wf_state (session cmds st).
Proof.
  revert st. induction cmds as [|self cmds IH]; intros st Hst; simpl; [done|].
  apply IH. by apply wf_invoke.
Qed.

Lemma wf_reachable cmds address d :
  odict.get address (meta_cache (session cmds initial)) = Some d →
  wf_record d = true.
Proof.
  intros Hd. eapply wf_db_get; [|done].
  apply wf_session. split; [constructor | apply map_Forall_empty].
Qed.

(** * Further properties of the commands and of the queries *)

(** ** Deleting *)

Lemma get_del_ne {K V} `{EqDecision K} (k k' : K) (d : list (K * V)) :
  k ≠ k' → odict.get k' (odict.del k d) = odict.get k' d.
Proof.
  intros Hne. induction d as [|[k0 v0] d IH]; simpl; [done|].
  destruct (decide (k = k0)) as [->|Hk]; simpl.
  - by rewrite decide_False.
  - by rewrite IH.
Qed.

Lemma get_del_eq {K V} `{EqDecision K} (k : K) (d : list (K * V)) :
  NoDup (odict.keys d) → odict.get k (odict.del k d) = None.
Proof.
  induction d as [|[k0 v0] d IH]; simpl; [done|].
  intros [Hk0 Hd]%NoDup_cons. destruct (decide (k = k0)) as [->|Hk]; simpl.
  - by apply get_None_keys.
  - rewrite decide_False by done. by apply IH.
Qed.

(** X1: [ptmeta del <expression>] for an address that is not in the database
    does nothing at all: no error, no output (even with [-v]), the same
    state. *)
Theorem invoke_del_absent self text address others st :
  action (args self) = Some (del text) →
  parse_address (dbg self) text = address :: others →
  odict.get address (meta_cache st) = None →
  invoke self st = (Ok (), st).
Proof.
  intros Hact Hparse Hnone%mem_false. unfold invoke, with_address.
  rewrite Hact, Hparse. unfold delete_metadata, mbind, cmd_bind, get_state.
  by rewrite Hnone.
Qed.

Lemma invoke_del_absent_witness :
  invoke {| dbg := dbg_0x10;
            args := {| verbose := 3; action := Some (del "0x10");
                       save := false; load := false |} |} st_0x20
  = (Ok (), st_0x20).
Proof. by apply (invoke_del_absent _ "0x10" 16 []). Defined.

Lemma delete_metadata_meta_cache self address st :
  meta_cache (delete_metadata self address st).2
  = if odict.mem address (meta_cache st) then odict.del address (meta_cache st)
    else meta_cache st.
Proof.
  unfold delete_metadata, mbind, cmd_bind, get_state, when, print, write,
    set_meta_cache.
  destruct (odict.mem address (meta_cache st)); simpl; [|done].
  by destruct (bool_decide _).
Qed.

(** X2: after [delete_metadata] the address has no record, whatever is asked
    for, and the records of the other addresses are as before. *)
Theorem delete_metadata_removes self address list_metadata st :
  NoDup (odict.keys (meta_cache st)) →
  let st' := (delete_metadata self address st).2 in
  get_metadata st' address list_metadata
  = Ok (None, "", "chunk address not found in metadata database
", builtin_str)
  ∧ ∀ other, other ≠ address →
      odict.get other (meta_cache st') = odict.get other (meta_cache st).
Proof.
  intros Hnodup st'. subst st'. split.
  - unfold get_metadata. rewrite delete_metadata_meta_cache.
    destruct (odict.mem address (meta_cache st)) eqn:Hm.
    + assert (odict.mem address (odict.del address (meta_cache st)) = false) as ->;
        [|done].
      by apply mem_false, get_del_eq.
    + by rewrite Hm.
  - intros other Hne. rewrite delete_metadata_meta_cache.
    destruct (odict.mem address (meta_cache st)); [|done].
    by apply get_del_ne.
Qed.

Lemma delete_metadata_removes_witness :
  let st' := (delete_metadata (command (del "0x20")) 32 st_0x20).2 in
  get_metadata st' 32 all
  = Ok (None, "", "chunk address not found in metadata database
", builtin_str)
  ∧ ∀ other, other ≠ 32 →
      odict.get other (meta_cache st') = odict.get other (meta_cache st_0x20).
Proof.
  apply (delete_metadata_removes (command (del "0x20")) 32 all st_0x20).
  apply (bool_decide_unpack _). by vm_compute.
Defined.

(** ** The database of a session holds an address once *)

#[global] Instance distinct_step_frame : Frame distinct_step.
Proof. split; unfold distinct_step; [by intros st | by auto | by intros o st [??]]. Qed.

Lemma NoDup_keys_del {K V} `{EqDecision K} (k : K) (d : list (K * V)) :
  NoDup (odict.keys d) → NoDup (odict.keys (odict.del k d)).
Proof.
  induction d as [|[k0 v0] d IH]; simpl; [done|].
  intros [Hk0 Hd]%NoDup_cons. destruct (decide (k = k0)); [done|].
  simpl. apply NoDup_cons. split; [|by apply IH].
  intros [v Hv]%elem_keys. apply Hk0, elem_keys. exists v.
  clear -Hv. induction d as [|[k1 v1] d IH]; simpl in *; [done|].
  destruct (decide (k = k1)); [by right|].
  apply elem_of_cons in Hv as [->|Hv]; [left | right; by apply IH].
Qed.

Lemma distinct_store address key result :
  preserves distinct_step (store address key result).
Proof.
  intros st [Hmc Hfs]. rewrite store_spec. split; [|done]. simpl.
  by apply NoDup_keys_set.
Qed.

Lemma distinct_add_metadata self address key value :
  preserves distinct_step (add_metadata self address key value).
Proof. unfold add_metadata. frame; apply distinct_store. Qed.

Lemma distinct_delete_metadata self address :
  preserves distinct_step (delete_metadata self address).
Proof.
  intros st [Hmc Hfs]. split.
  - rewrite delete_metadata_meta_cache.
    destruct (odict.mem _ _); [by apply NoDup_keys_del | done].
  - unfold delete_metadata, mbind, cmd_bind, get_state, when, print, write,
      set_meta_cache.
    destruct (odict.mem _ _); simpl; [|done]. by destruct (bool_decide _).
Qed.

Lemma distinct_configure_metadata self feature key values :
  preserves distinct_step (configure_metadata self feature key values).
Proof.
  intros st [Hmc Hfs].
  unfold configure_metadata, get_state, when, print, write, set_backtrace_ignore,
    mbind, cmd_bind.
  destruct (bool_decide (1 ≤ _)%nat); simpl; by repeat case_bool_decide.
Qed.

Lemma distinct_save_metadata_to_file filename :
  preserves distinct_step (save_metadata_to_file filename).
Proof.
  intros st [Hmc Hfs]. split; [done|]. simpl. by apply map_Forall_insert_2.
Qed.

Lemma distinct_load_metadata_from_file filename :
  preserves distinct_step (load_metadata_from_file filename).
Proof.
  intros st [Hmc Hfs].
  unfold load_metadata_from_file, get_state, set_meta_cache, set_backtrace_ignore,
    lift, mbind, cmd_bind. simpl.
  destruct (files st !! filename) as [d|] eqn:Hd; simpl; [|done].
  split; [|done]. simpl. by eapply Hfs.
Qed.

Lemma distinct_invoke self : preserves distinct_step (invoke self).
Proof.
  unfold invoke.
  destruct (action (args self)) as [[text key value|text|[text|] metadata|feature key values]|].
  - apply (preserves_with_address distinct_step). intros address.
    apply distinct_add_metadata.
  - apply (preserves_with_address distinct_step). intros address.
    apply distinct_delete_metadata.
  - apply (preserves_with_address distinct_step). intros address.
    apply (preserves_list_metadata distinct_step).
  - apply (preserves_list_metadata distinct_step).
  - apply distinct_configure_metadata.
  - frame; apply distinct_save_metadata_to_file
           || apply distinct_load_metadata_from_file.
Qed.

Lemma distinct_session cmds st : distinct_state st → distinct_state (session cmds st).
Proof.
  revert st. induction cmds as [|self cmds IH]; intros st Hst; simpl; [done|].
  apply IH. by apply distinct_invoke.
Qed.

Lemma distinct_reachable cmds : NoDup (odict.keys (meta_cache (session cmds initial))).
Proof.
  apply distinct_session. split; [constructor | apply map_Forall_empty].
Qed.

(** ** Adding *)

Lemma add_metadata_meta_cache self address key value st :
  meta_cache (add_metadata self address key value st).2
  = match stored self key value with
    | Some result =>
        odict.set address
          (odict.set key result (default [] (odict.get address (meta_cache st))))
          (meta_cache st)
    | None => meta_cache st
    end.
Proof.
  unfold add_metadata, stored, mbind, cmd_bind, when, print, write.
  destruct (bool_decide (1 ≤ _)%nat); simpl;
    repeat case_bool_decide; try destruct (get_backtrace _) as [raw funcs];
    try destruct (is_color value); simpl; by rewrite ?store_spec.
Qed.

Lemma add_metadata_same_ignore_files self address key value st :
  backtrace_ignore (add_metadata self address key value st).2 = backtrace_ignore st
  ∧ files (add_metadata self address key value st).2 = files st.
Proof.
  unfold add_metadata, mbind, cmd_bind, when, print, write.
  destruct (bool_decide (1 ≤ _)%nat); simpl;
    repeat case_bool_decide; try destruct (get_backtrace _) as [raw funcs];
    try destruct (is_color value); simpl; by rewrite ?store_spec.
Qed.

(** X3: [add_metadata] touches one field of one record: the records of the
    other addresses and the other fields of the address are as before, and
    so are the ignore list and the files. *)
Theorem add_metadata_frame self address key value st :
  let st' := (add_metadata self address key value st).2 in
  backtrace_ignore st' = backtrace_ignore st
  ∧ files st' = files st
  ∧ (∀ other, other ≠ address →
       odict.get other (meta_cache st') = odict.get other (meta_cache st))
  ∧ (∀ field, field ≠ key →
       odict.get address (meta_cache st') ≫= odict.get field
       = odict.get address (meta_cache st) ≫= odict.get field).
Proof.
  intros st'. subst st'.
  destruct (add_metadata_same_ignore_files self address key value st) as [Hi Hf].
  split_and!; [done | done | |].
  - intros other Hne. rewrite add_metadata_meta_cache.
    destruct (stored self key value); [|done]. by rewrite get_set_ne.
  - intros field Hne. rewrite add_metadata_meta_cache.
    destruct (stored self key value); [|done]. rewrite get_set_eq. simpl.
    rewrite get_set_ne by done.
    by destruct (odict.get address (meta_cache st)).
Qed.

(** X4: [add_metadata] keeps the insertion order: a field that the record has
    keeps its place and a new field goes last; so it is for the addresses
    of the database. *)
Theorem add_metadata_order self address key value st :
  (key = "color" → is_color value = true) →
  let st' := (add_metadata self address key value st).2 in
  let fields := default [] (odict.get address (meta_cache st)) in
  odict.keys <$> odict.get address (meta_cache st')
  = Some (if odict.mem key fields then odict.keys fields
          else odict.keys fields ++ [key])
  ∧ odict.keys (meta_cache st')
    = if odict.mem address (meta_cache st) then odict.keys (meta_cache st)
      else odict.keys (meta_cache st) ++ [address].
Proof.
  intros Hcolor st' fields. subst st' fields.
  rewrite add_metadata_meta_cache.
  destruct (stored self key value) as [result|] eqn:Hstored.
  - rewrite get_set_eq. simpl. by rewrite !keys_set.
  - unfold stored in Hstored. repeat case_bool_decide; try done.
    by rewrite Hcolor in Hstored.
Qed.

Lemma add_metadata_order_witness :
  let st' := (add_metadata (command (add "0x10" "color" (Some "green"))) 16
                "color" (Some "green") st_backtrace_first).2 in
  odict.keys <$> odict.get 16 (meta_cache st') = Some ["backtrace"; "tag"; "color"]
  ∧ odict.keys (meta_cache st') = [16].
Proof.
  exact (add_metadata_order (command (add "0x10" "color" (Some "green"))) 16
           "color" (Some "green") st_backtrace_first (fun _ => eq_refl)).
Defined.

(** ** The backtrace of a record *)

Lemma get_functions_loop_prefix ignore max_len funcs :
  get_functions_loop ignore max_len funcs [] `prefix_of` kept ignore funcs.
Proof.
  destruct max_len as [n|]; [|by rewrite get_functions_loop_None].
  destruct (decide (n ≤ 0)).
  - by rewrite get_functions_loop_passed by (simpl; lia).
  - rewrite get_functions_loop_bound by (simpl; lia). simpl.
    exists (drop (Z.to_nat n) (kept ignore funcs)). by rewrite take_drop.
Qed.

(** X5: whatever the bound, [get_functions] returns a beginning of the list of
    the functions that are not ignored, so never an ignored function and
    never a function out of its order; for a bound of one or more, as many
    of them as the bound allows. *)
Theorem get_functions_prefix st address d raw funcs max_len :
  odict.get address (meta_cache st) = Some d →
  odict.get "backtrace" d = Some (PyCapture raw funcs) →
  ∃ l, get_functions st address max_len = Ok (Some l)
       ∧ l `prefix_of` kept (backtrace_ignore st) funcs
       ∧ (∀ f, f ∈ l → f ∈ funcs ∧ f ∉ backtrace_ignore st)
       ∧ (∀ n, max_len = Some n → 1 ≤ n →
            length l = Nat.min (Z.to_nat n) (length (kept (backtrace_ignore st) funcs))).
Proof.
  intros Ha Hb. rewrite (get_functions_capture _ _ _ _ _ _ Ha Hb).
  eexists. split; [done|].
  pose proof (get_functions_loop_prefix (backtrace_ignore st) max_len funcs) as Hprefix.
  split_and!; [done | |].
  - intros f Hf. destruct Hprefix as [k Hk].
    assert (Hin : f ∈ kept (backtrace_ignore st) funcs)
      by (rewrite Hk; apply elem_of_app; by left).
    apply list_elem_of_filter in Hin. tauto.
  - intros n -> Hn. rewrite get_functions_loop_bound by (simpl; lia). simpl.
    apply length_take.
Qed.

Lemma get_functions_prefix_witness :
  ∃ l, get_functions st_0x20 32 (Some 1) = Ok (Some l)
       ∧ l `prefix_of` kept (backtrace_ignore st_0x20) ["f1"; "f2"; "f3"]
       ∧ (∀ f, f ∈ l → f ∈ ["f1"; "f2"; "f3"] ∧ f ∉ backtrace_ignore st_0x20)
       ∧ (∀ n, Some 1 = Some n → 1 ≤ n →
            length l = Nat.min (Z.to_nat n)
                         (length (kept (backtrace_ignore st_0x20) ["f1"; "f2"; "f3"]))).
Proof.
  exact (get_functions_prefix st_0x20 32 _ "#0 f1 #1 f2 #2 f3" ["f1"; "f2"; "f3"]
           (Some 1) eq_refl eq_refl).
Defined.

(** An iteration of [get_metadata] on a backtrace spec, for a record that
    has a capture: the parameter is read, then the functions are resolved. *)
Lemma get_metadata_step_backtrace st address d v key param raw funcs :
  odict.get address (meta_cache st) = Some d →
  odict.get "backtrace" d = Some (PyCapture raw funcs) →
  split_key key = Ok ("backtrace", param) →
  get_metadata_step st address v key
  = max_len ← match param with
              | None => Ok 1
              | Some p => py_int p
              end;
    let l := get_functions_loop (backtrace_ignore st) (Some max_len) funcs [] in
    Ok {| L := L v ++ [PyList l];
          suffix := suffix v +:+ match l with
                                 | [] => " | filtered"
                                 | _ => " | " +:+ pystr.join "," l
                                 end;
          epilog := epilog v +:+ raw;
          colorize_func := colorize_func v;
          opened := true |}.
Proof.
  intros Ha Hb Hk. unfold get_metadata_step. rewrite Hk. simpl.
  rewrite (getitem_get _ _ _ Ha). simpl.
  unfold odict.mem. rewrite Hb. simpl.
  unfold get_first_function.
  destruct param as [p|]; [destruct (py_int p) as [n|e]; simpl; [|done]|];
    rewrite (get_functions_capture _ _ _ _ _ _ Ha Hb); simpl;
    rewrite (getitem_get _ _ _ Hb); simpl;
    by destruct (get_functions_loop _ _ _ _).
Qed.

(** X6: asked for without a parameter, the backtrace of a record is its first
    function that is not ignored, and ["filtered"] when they all are; the
    epilog is the raw capture. *)
Theorem get_metadata_backtrace_default st address d raw funcs :
  odict.get address (meta_cache st) = Some d →
  odict.get "backtrace" d = Some (PyCapture raw funcs) →
  get_metadata st address (names ["backtrace"])
  = Ok (Some [PyList (take 1 (kept (backtrace_ignore st) funcs))],
        match kept (backtrace_ignore st) funcs with
        | [] => " | filtered |"
        | f :: _ => " | " +:+ f +:+ " |"
        end,
        raw, builtin_str).
Proof.
  intros Ha Hb. unfold get_metadata, odict.mem. rewrite Ha. simpl.
  rewrite (get_metadata_step_backtrace _ _ _ _ _ None _ _ Ha Hb) by done. simpl.
  rewrite get_functions_loop_bound by (simpl; lia). simpl.
  by destruct (kept (backtrace_ignore st) funcs).
Qed.

Lemma get_metadata_backtrace_default_witness :
  get_metadata st_0x20 32 (names ["backtrace"])
  = Ok (Some [PyList (take 1 (kept (backtrace_ignore st_0x20) ["f1"; "f2"; "f3"]))],
        match kept (backtrace_ignore st_0x20) ["f1"; "f2"; "f3"] with
        | [] => " | filtered |"
        | f :: _ => " | " +:+ f +:+ " |"
        end,
        "#0 f1 #1 f2 #2 f3", builtin_str).
Proof.
  exact (get_metadata_backtrace_default st_0x20 32 _ _ _ eq_refl eq_refl).
Defined.

(** X7: [add_metadata] of a backtrace stores the capture of the debugger,
    whatever value comes with it; asked for in full, it is the functions of
    the capture without the ignored ones, and the epilog is its raw text. *)
Theorem add_backtrace_then_get self address value st :
  let st' := (add_metadata self address "backtrace" value st).2 in
  ∃ s,
    get_metadata st' address (names ["backtrace:-1"])
    = Ok (Some [PyList (kept (backtrace_ignore st) (get_backtrace (dbg self)).2)],
          s, (get_backtrace (dbg self)).1, builtin_str).
Proof.
  intros st'. subst st'.
  pose proof (add_metadata_meta_cache self address "backtrace" value st) as Hmc.
  destruct (add_metadata_same_ignore_files self address "backtrace" value st) as [Hi _].
  set (st' := (add_metadata self address "backtrace" value st).2) in *.
  change (stored self "backtrace" value)
    with (Some (PyCapture (get_backtrace (dbg self)).1 (get_backtrace (dbg self)).2))
    in Hmc.
  assert (Ha : odict.get address (meta_cache st')
               = Some (odict.set "backtrace"
                         (PyCapture (get_backtrace (dbg self)).1 (get_backtrace (dbg self)).2)
                         (default [] (odict.get address (meta_cache st)))))
    by (rewrite Hmc; apply get_set_eq).
  unfold get_metadata, odict.mem. rewrite Ha. simpl.
  rewrite (get_metadata_step_backtrace _ _ _ _ _ (Some "-1") _ _ Ha (get_set_eq _ _ _))
    by done.
  change (py_int "-1") with (Ok (-1)). simpl.
  rewrite get_functions_loop_passed by (simpl; lia). simpl. rewrite Hi.
  by eexists.
Qed.

(** ** The color of a record *)

#[local] Arguments colorize_table : simpl never.

(** X8: after [add_metadata] of a color of the palette, asking for the color
    gives no entry, no text, and the function of the table for that name. *)
Theorem add_color_then_get self address c f st :
  odict.get c colorize_table = Some f →
  get_metadata (add_metadata self address "color" (Some c) st).2 address
    (names ["color"])
  = Ok (Some [], "", "", f).
Proof.
  intros Hc.
  pose proof (add_metadata_meta_cache self address "color" (Some c) st) as Hmc.
  set (st' := (add_metadata self address "color" (Some c) st).2) in *.
  assert (Hstored : stored self "color" (Some c) = Some (PyStr c)).
  { unfold stored. rewrite bool_decide_eq_false_2, bool_decide_eq_true_2 by done.
    unfold is_color, odict.mem. by rewrite Hc. }
  rewrite Hstored in Hmc.
  assert (Ha : odict.get address (meta_cache st')
               = Some (odict.set "color" (PyStr c)
                         (default [] (odict.get address (meta_cache st)))))
    by (rewrite Hmc; apply get_set_eq).
  unfold get_metadata, odict.mem. rewrite Ha. simpl.
  unfold get_metadata_step. simpl. rewrite (getitem_get _ _ _ Ha). simpl.
  unfold odict.mem. rewrite get_set_eq. simpl.
  rewrite (getitem_get _ _ _ (get_set_eq _ _ _)). simpl.
  unfold odict.getitem. by rewrite Hc.
Qed.

Lemma add_color_then_get_witness :
  get_metadata
    (add_metadata (command (add "0x20" "color" (Some "lightblue"))) 32 "color"
       (Some "lightblue") st_0x20).2
    32 (names ["color"])
  = Ok (Some [], "", "", pu light_blue).
Proof.
  exact (add_color_then_get (command (add "0x20" "color" (Some "lightblue"))) 32
           "lightblue" (pu light_blue) st_0x20 eq_refl).
Defined.

(** ** Names with colons *)

Lemma contains_colons s : pystr.contains ":" s = negb (bool_decide (colons s = 0%nat)).
Proof.
  induction s as [|c s IH]; simpl; [done|].
  destruct (decide (":"%char = c)); [done | apply IH].
Qed.

Lemma split_length s : length (pystr.split ":" s) = S (colons s).
Proof.
  induction s as [|c s IH]; simpl; [done|].
  destruct (decide (":"%char = c)); simpl; [by rewrite IH|].
  destruct (pystr.split ":" s); simpl in *; [done | lia].
Qed.

Lemma split_plain s : colons s = 0%nat → pystr.split ":" s = [s].
Proof.
  induction s as [|c s IH]; simpl; [done|].
  destruct (decide (":"%char = c)); [done|]. intros Hs. by rewrite IH.
Qed.

Lemma split_colon a b :
  colons a = 0%nat → pystr.split ":" (a +:+ String ":" b) = a :: pystr.split ":" b.
Proof.
  induction a as [|c a IH]; simpl; [done|].
  destruct (decide (":"%char = c)); [done|]. intros Ha. by rewrite IH.
Qed.

Lemma colons_app a b : colons (a +:+ b) = (colons a + colons b)%nat.
Proof.
  induction a as [|c a IH]; simpl; [done|].
  destruct (decide (":"%char = c)); simpl; by rewrite IH.
Qed.

Lemma split_key_no_colon key : colons key = 0%nat → split_key key = Ok (key, None).
Proof. intros Hk. apply split_key_plain. rewrite contains_colons, Hk. done. Qed.

Lemma split_key_param name param :
  colons name = 0%nat → colons param = 0%nat →
  split_key (name +:+ String ":" param) = Ok (name, Some param).
Proof.
  intros Hn Hp. unfold split_key.
  rewrite contains_colons, colons_app. simpl.
  rewrite bool_decide_eq_false_2 by lia. simpl.
  by rewrite split_colon, split_plain.
Qed.

Lemma split_key_colons key : (2 ≤ colons key)%nat → split_key key = Raise ValueError.
Proof.
  intros Hk. unfold split_key. rewrite contains_colons.
  rewrite bool_decide_eq_false_2 by lia. simpl.
  pose proof (split_length key) as Hlen.
  destruct (pystr.split ":" key) as [|? [|? [|? ?]]]; simpl in *; done || lia.
Qed.

(** X9: a requested name with two colons or more makes [get_metadata] raise a
    [ValueError] for an address that has a record, whatever the record holds
    and whatever is asked after it. *)
Theorem get_metadata_two_colons st address d key rest :
  odict.get address (meta_cache st) = Some d →
  (2 ≤ colons key)%nat →
  get_metadata st address (names (key :: rest)) = Raise ValueError.
Proof.
  intros Ha Hk. unfold get_metadata, odict.mem. rewrite Ha. simpl.
  unfold get_metadata_step. by rewrite split_key_colons.
Qed.

Lemma get_metadata_two_colons_witness :
  get_metadata st_0x20 32 (names ["backtrace:1:2"; "tag"]) = Raise ValueError.
Proof.
  apply (get_metadata_two_colons st_0x20 32
           [("backtrace", PyCapture "#0 f1 #1 f2 #2 f3" ["f1"; "f2"; "f3"])]);
    [reflexivity | simpl; lia].
Defined.

(** X10: the parameter of a name matters for the backtrace of a record that has
    one only: for any other name, and for the backtrace of a record without
    one, [name:param] is read as [name], whatever the parameter. *)
Theorem get_metadata_param_ignored st address d name param rest :
  odict.get address (meta_cache st) = Some d →
  colons name = 0%nat → colons param = 0%nat →
  name ≠ "backtrace" ∨ odict.get "backtrace" d = None →
  get_metadata st address (names ((name +:+ String ":" param) :: rest))
  = get_metadata st address (names (name :: rest)).
Proof.
  intros Ha Hn Hp Hb. unfold get_metadata, odict.mem. rewrite Ha. simpl.
  unfold get_metadata_step.
  rewrite split_key_param, split_key_no_colon by done. simpl.
  rewrite (getitem_get _ _ _ Ha). simpl.
  destruct (odict.mem name d) eqn:Hm; simpl; [|done].
  case_bool_decide as Hname; [|done]. subst name.
  destruct Hb as [?|Hb]; [done|]. unfold odict.mem in Hm. by rewrite Hb in Hm.
Qed.

Lemma get_metadata_param_ignored_witness :
  get_metadata st_backtrace_first 16 (names ["tag:many"; "backtrace"])
  = get_metadata st_backtrace_first 16 (names ["tag"; "backtrace"]).
Proof.
  apply (get_metadata_param_ignored st_backtrace_first 16
           [("backtrace", PyCapture "#0 work #1 main" ["work"; "main"]);
            ("tag", PyStr "x")] "tag" "many");
    [reflexivity | reflexivity | reflexivity | by left].
Defined.



(** ** Fields that the record does not have *)

Lemma get_metadata_step_missing st address d v key :
  odict.get address (meta_cache st) = Some d →
  colons key = 0%nat →
  odict.get key d = None →
  get_metadata_step st address v key
  = Ok (if bool_decide (key = "color") then v
        else {| L := L v ++ [PyNone];
                suffix := suffix v +:+ " | N/A";
                epilog := epilog v +:+ "'" +:+ key
                          +:+ "' key not found in metadata database
";
                colorize_func := colorize_func v;
                opened := true |}).
Proof.
  intros Ha Hk Hnone. unfold get_metadata_step.
  rewrite split_key_no_colon by done. simpl.
  rewrite (getitem_get _ _ _ Ha). simpl.
  unfold odict.mem. rewrite Hnone. simpl. by case_bool_decide.
Qed.

(** X12: a field that the record of the address does not have is no error: it
    gives a [None] entry, [N/A] in the suffix and a line that names the
    field in the epilog. *)
Theorem get_metadata_missing_field st address d key :
  odict.get address (meta_cache st) = Some d →
  colons key = 0%nat →
  key ≠ "color" →
  odict.get key d = None →
  get_metadata st address (names [key])
  = Ok (Some [PyNone], " | N/A |",
        "'" +:+ key +:+ "' key not found in metadata database
", builtin_str).
Proof.
  intros Ha Hk Hc Hnone. unfold get_metadata, odict.mem. rewrite Ha. simpl.
  rewrite (get_metadata_step_missing _ _ _ _ _ Ha Hk Hnone).
  by rewrite bool_decide_eq_false_2.
Qed.

Lemma get_metadata_missing_field_witness :
  get_metadata st_0x20 32 (names ["tag"])
  = Ok (Some [PyNone], " | N/A |", "'tag' key not found in metadata database
", builtin_str).
Proof.
  apply (get_metadata_missing_field st_0x20 32
           [("backtrace", PyCapture "#0 f1 #1 f2 #2 f3" ["f1"; "f2"; "f3"])] "tag");
    [reflexivity | reflexivity | by vm_compute | reflexivity].
Defined.

(** ** One entry for each name but the color *)

Section entries.
Variables (st : state) (address : Z) (d : record).
Hypothesis Haddress : odict.get address (meta_cache st) = Some d.
Hypothesis Hwf : wf_record d = true.

(** An iteration on a name without colon never raises. *)
Lemma get_metadata_step_ok v key :
  colons key = 0%nat →
  ∃ v', get_metadata_step st address v key = Ok v'
        ∧ (if bool_decide (key = "color")
           then L v' = L v ∧ suffix v' = suffix v ∧ opened v' = opened v
           else length (L v') = S (length (L v)) ∧ opened v' = true).
Proof.
  intros Hk.
  apply andb_prop in Hwf as [[_ Hc]%andb_prop Hb].
  destruct (odict.get key d) as [x|] eqn:Hx.
  - destruct (decide (key = "backtrace")) as [->|Hnb].
    + unfold backtrace_ok in Hb. rewrite Hx in Hb.
      destruct x as [| | |raw funcs]; try done.
      rewrite (get_metadata_step_backtrace _ _ _ _ _ None _ _ Haddress Hx) by done.
      simpl. eexists. split; [done|]. simpl. rewrite length_app. simpl. split; [lia|done].
    + destruct (decide (key = "color")) as [->|Hnc].
      * rewrite (get_metadata_step_color st address d Haddress) by eauto.
        eexists. by split.
      * rewrite (get_metadata_step_plain st address d Haddress v key x)
          by (rewrite ?contains_colons, ?Hk; done).
        eexists. split; [done|]. rewrite bool_decide_eq_false_2 by done.
        simpl. rewrite length_app. simpl. split; [lia|done].
  - rewrite (get_metadata_step_missing _ _ _ _ _ Haddress Hk Hx).
    eexists. split; [done|]. case_bool_decide; [done|].
    simpl. rewrite length_app. simpl. split; [lia|done].
Qed.

Lemma get_metadata_loop_ok l : ∀ v,
  Forall (fun key => colons key = 0%nat) l →
  ∃ v', get_metadata_loop st address v l = Ok v'
        ∧ length (L v') = (length (L v) + length (filter (fun key => key ≠ "color") l))%nat
        ∧ (Forall (fun key => key = "color") l →
             suffix v' = suffix v ∧ opened v' = opened v)
        ∧ (¬ Forall (fun key => key = "color") l → opened v' = true).
Proof.
  induction l as [|key l IH]; intros v Hl.
  - exists v. simpl. split_and!; [done | lia | done |]. intros H. by destruct H.
  - apply Forall_cons in Hl as [Hkey Hl].
    destruct (get_metadata_step_ok v key Hkey) as (v1 & Hstep & Hv1).
    destruct (IH v1 Hl) as (v' & Hloop & Hlen & Hcolor & Hopen).
    exists v'. simpl. rewrite Hstep. simpl. split; [done|].
    case_bool_decide as Hc.
    + destruct Hv1 as (HL & Hs & Ho). subst key.
      rewrite filter_cons_False by (intros H; by apply H).
      split_and!.
      * by rewrite Hlen, HL.
      * intros [_ Hall]%Forall_cons. destruct (Hcolor Hall) as [-> ->]. by split.
      * intros Hnot. apply Hopen. intros Hall. apply Hnot. by constructor.
    + destruct Hv1 as (HL & Ho).
      rewrite filter_cons_True by done.
      split_and!.
      * rewrite Hlen, HL. simpl. lia.
      * by intros [? _]%Forall_cons.
      * intros _. destruct (decide (Forall (fun key => key = "color") l)) as [Hall|Hnot].
        -- destruct (Hcolor Hall) as [_ ->]. done.
        -- by apply Hopen.
Qed.

End entries.

Lemma append_bar_not_empty s : s +:+ " |" ≠ "".
Proof. by destruct s. Qed.

(** X13: for a record as the commands build it and names without colon,
    [get_metadata] never raises; the list has one entry for each name that
    is not the color, whether the record has the field or not; and the suffix is
    empty exactly when nothing but the color was asked for. *)
Theorem get_metadata_entries st address d l :
  odict.get address (meta_cache st) = Some d →
  wf_record d = true →
  Forall (fun key => colons key = 0%nat) l →
  ∃ entries s e f,
    get_metadata st address (names l) = Ok (Some entries, s, e, f)
    ∧ length entries = length (filter (fun key => key ≠ "color") l)
    ∧ (s = "" ↔ Forall (fun key => key = "color") l).
Proof.
  intros Ha Hwf Hl. unfold get_metadata, odict.mem. rewrite Ha. simpl.
  edestruct (get_metadata_loop_ok st address d Ha Hwf l) as (v' & -> & Hlen & Hcolor & Hopen);
    [done|].
  simpl. do 4 eexists. split; [done|]. split; [by rewrite Hlen|].
  destruct (decide (Forall (fun key => key = "color") l)) as [Hall|Hnot].
  - destruct (Hcolor Hall) as [-> ->]. by simpl.
  - rewrite (Hopen Hnot). split; [by intros ?%append_bar_not_empty | done].
Qed.

Lemma get_metadata_entries_witness :
  ∃ entries s e f,
    get_metadata st_backtrace_first 16 (names ["color"; "nope"; "backtrace"; "tag"])
    = Ok (Some entries, s, e, f)
    ∧ length entries
      = length (filter (fun key => key ≠ "color") ["color"; "nope"; "backtrace"; "tag"])
    ∧ (s = "" ↔ Forall (fun key => key = "color") ["color"; "nope"; "backtrace"; "tag"]).
Proof.
  apply (get_metadata_entries st_backtrace_first 16
           [("backtrace", PyCapture "#0 work #1 main" ["work"; "main"]);
            ("tag", PyStr "x")]);
    [reflexivity | reflexivity | repeat constructor].
Defined.

(** ** What a command leaves as it is *)

#[global] Instance same_meta_cache_frame : Frame same_meta_cache.
Proof.
  split; unfold same_meta_cache; [done | intros ??? H1 H2; by rewrite H2 | done].
Qed.

#[global] Instance same_backtrace_ignore_frame : Frame same_backtrace_ignore.
Proof.
  split; unfold same_backtrace_ignore; [done | intros ??? H1 H2; by rewrite H2 | done].
Qed.

#[global] Instance same_files_frame : Frame same_files.
Proof.
  split; unfold same_files; [done | intros ??? H1 H2; by rewrite H2 | done].
Qed.

(** X14: [list_metadata] only reads: the database, the ignore list and the files
    are as before, also when a bad name makes it raise. *)
Theorem list_metadata_reads_only self address st :
  let st' := (list_metadata self address st).2 in
  meta_cache st' = meta_cache st
  ∧ backtrace_ignore st' = backtrace_ignore st
  ∧ files st' = files st.
Proof.
  split_and!.
  - apply (preserves_list_metadata same_meta_cache).
  - apply (preserves_list_metadata same_backtrace_ignore).
  - apply (preserves_list_metadata same_files).
Qed.

Lemma same_files_invoke self :
  is_save (args self) = false → preserves same_files (invoke self).
Proof.
  unfold invoke, is_save.
  destruct (action (args self)) as [[text key value|text|[text|] metadata|feature key values]|].
  - intros _. apply (preserves_with_address same_files). intros address st.
    apply add_metadata_same_ignore_files.
  - intros _. apply (preserves_with_address same_files). intros address.
    unfold delete_metadata. frame. by intros st.
  - intros _. apply (preserves_with_address same_files). intros address.
    apply (preserves_list_metadata same_files).
  - intros _. apply (preserves_list_metadata same_files).
  - intros _. unfold configure_metadata. frame. by intros st.
  - intros ->. simpl. destruct (load (args self)); simpl; [|frame].
    unfold load_metadata_from_file. frame; by intros st.
Qed.

Lemma same_backtrace_ignore_invoke self :
  changes_ignore (args self) = false → preserves same_backtrace_ignore (invoke self).
Proof.
  unfold invoke, changes_ignore, is_load.
  destruct (action (args self)) as [[text key value|text|[text|] metadata|feature key values]|].
  - intros _. apply (preserves_with_address same_backtrace_ignore). intros address st.
    apply add_metadata_same_ignore_files.
  - intros _. apply (preserves_with_address same_backtrace_ignore). intros address.
    unfold delete_metadata. frame. by intros st.
  - intros _. apply (preserves_with_address same_backtrace_ignore). intros address.
    apply (preserves_list_metadata same_backtrace_ignore).
  - intros _. apply (preserves_list_metadata same_backtrace_ignore).
  - done.
  - destruct (save (args self)), (load (args self)); simpl; try done; intros _;
      frame; unfold save_metadata_to_file; frame; by intros st.
Qed.

Lemma same_meta_cache_invoke self :
  changes_db (args self) = false → preserves same_meta_cache (invoke self).
Proof.
  unfold invoke, changes_db, is_load.
  destruct (action (args self)) as [[text key value|text|[text|] metadata|feature key values]|];
    try done.
  - intros _. apply (preserves_with_address same_meta_cache). intros address.
    apply (preserves_list_metadata same_meta_cache).
  - intros _. apply (preserves_list_metadata same_meta_cache).
  - intros _. intros st.
    unfold configure_metadata, get_state, when, print, write, set_backtrace_ignore,
      mbind, cmd_bind, same_meta_cache.
    destruct (bool_decide (1 ≤ _)%nat); simpl; by repeat case_bool_decide.
  - destruct (save (args self)), (load (args self)); simpl; try done; intros _;
      frame; unfold save_metadata_to_file; frame; by intros st.
Qed.

Lemma save_files self st :
  is_save (args self) = true →
  files (run self st)
  = <[METADATA_DB := Snapshot (meta_cache st) (backtrace_ignore st)]> (files st)
  ∧ meta_cache (run self st) = meta_cache st
  ∧ backtrace_ignore (run self st) = backtrace_ignore st.
Proof.
  unfold is_save, run, invoke. destruct (action (args self)); [done|].
  by intros ->.
Qed.

(** X15: what each command may change.  The files change by [ptmeta -S] alone,
    which puts the database and the ignore list under [metadata.pickle]
    ([-S] is ignored when an action is given, and [-L] when [-S] is given);
    the ignore list changes by [config] and by the load alone; the database
    by [add], [del] and the load alone. *)
Theorem invoke_footprint self st :
  let st' := run self st in
  files st'
  = (if is_save (args self)
     then <[METADATA_DB := Snapshot (meta_cache st) (backtrace_ignore st)]> (files st)
     else files st)
  ∧ (if changes_ignore (args self) then True
     else backtrace_ignore st' = backtrace_ignore st)
  ∧ (if changes_db (args self) then True
     else meta_cache st' = meta_cache st).
Proof.
  split_and!.
  - destruct (is_save (args self)) eqn:Hs;
      [by apply save_files | by apply same_files_invoke].
  - destruct (changes_ignore (args self)) eqn:Hc;
      [done | by apply same_backtrace_ignore_invoke].
  - destruct (changes_db (args self)) eqn:Hc;
      [done | by apply same_meta_cache_invoke].
Qed.

(** ** Snapshots *)

Lemma session_app cmds1 cmds2 st :
  session (cmds1 ++ cmds2) st = session cmds2 (session cmds1 st).
Proof. unfold session. apply foldl_app. Qed.

Lemma same_files_session cmds st :
  Forall (fun self => is_save (args self) = false) cmds →
  files (session cmds st) = files st.
Proof.
  intros Hcmds. revert st.
  induction Hcmds as [|self cmds Hself _ IH]; intros st; simpl; [done|].
  rewrite IH. by apply same_files_invoke.
Qed.

(** X16: a save, any commands that are not a save, then a load: the database
    and the ignore list are those of the moment of the save. *)
Theorem save_then_load saver loader cmds st :
  is_save (args saver) = true →
  is_load (args loader) = true →
  Forall (fun self => is_save (args self) = false) cmds →
  let st' := session (saver :: cmds ++ [loader]) st in
  meta_cache st' = meta_cache st ∧ backtrace_ignore st' = backtrace_ignore st.
Proof.
  intros Hsave Hload Hcmds st'. subst st'.
  change (session (saver :: cmds ++ [loader]) st)
    with (session (cmds ++ [loader]) (run saver st)).
  rewrite session_app. simpl.
  destruct (save_files saver st Hsave) as (Hfiles & Hmc & Hign).
  destruct (load_replaces loader (session cmds (run saver st))
              (Snapshot (meta_cache st) (backtrace_ignore st)) Hload) as [Hi Hm].
  { rewrite same_files_session by done. rewrite Hfiles. apply lookup_insert_eq. }
  by rewrite Hi, Hm.
Qed.

Lemma save_then_load_witness :
  let st' := session (command_save
                        :: [command (del "0x20");
                            command (config "ignore" "backtrace" ["f1"; "f3"]);
                            command (add "0x10" "tag" (Some "x"))]
                        ++ [command_load]) st_0x20 in
  meta_cache st' = meta_cache st_0x20 ∧ backtrace_ignore st' = backtrace_ignore st_0x20.
Proof.
  apply (save_then_load command_save command_load); [reflexivity | reflexivity |].
  repeat constructor.
Defined.

(** X17: a load when no snapshot was saved raises [FileNotFoundError] after its
    message, and changes nothing else. *)
Theorem invoke_load_missing self st :
  is_load (args self) = true →
  files st !! METADATA_DB = None →
  invoke self st
  = (Raise FileNotFoundError,
     {| meta_cache := meta_cache st;
        backtrace_ignore := backtrace_ignore st;
        files := files st;
        stdout := stdout st ++ [Print "Loading metadata database from file...
"] |}).
Proof.
  unfold is_load, invoke. destruct (action (args self)); [done|].
  destruct (save (args self)), (load (args self)); try done. simpl.
  intros _ Hnone.
  unfold print, write, load_metadata_from_file, get_state, lift, mbind, cmd_bind.
  simpl. by rewrite Hnone.
Qed.

Lemma invoke_load_missing_witness :
  invoke command_load st_0x20
  = (Raise FileNotFoundError,
     {| meta_cache := meta_cache st_0x20;
        backtrace_ignore := backtrace_ignore st_0x20;
        files := files st_0x20;
        stdout := stdout st_0x20 ++ [Print "Loading metadata database from file...
"] |}).
Proof. apply invoke_load_missing; reflexivity. Defined.

(** ** Address expressions *)

(** X18: when the debugger resolves the address expression of [add], [del] or
    [list] to no address, the command prints a warning and the help, and
    does nothing else. *)
Theorem invoke_no_valid_address self act text st :
  action (args self) = Some act →
  address_arg act = Some text →
  parse_address (dbg self) text = [] →
  invoke self st
  = (Ok (),
     {| meta_cache := meta_cache st;
        backtrace_ignore := backtrace_ignore st;
        files := files st;
        stdout := stdout st ++ [PrintError "WARNING: No valid address supplied";
                                PrintHelp] |}).
Proof.
  intros Hact Harg Hparse. unfold invoke, with_address. rewrite Hact.
  destruct act as [a key value|a|[a|] metadata|feature key values];
    simplify_eq/=; rewrite Hparse; unfold write, mbind, cmd_bind; simpl;
    by rewrite <- app_assoc.
Qed.

Lemma invoke_no_valid_address_witness :
  invoke (command (add "main_arena" "tag" (Some "x"))) st_0x20
  = (Ok (),
     {| meta_cache := meta_cache st_0x20;
        backtrace_ignore := backtrace_ignore st_0x20;
        files := files st_0x20;
        stdout := stdout st_0x20 ++ [PrintError "WARNING: No valid address supplied";
                                     PrintHelp] |}).
Proof.
  by apply (invoke_no_valid_address _ (add "main_arena" "tag" (Some "x")) "main_arena").
Defined.

(** ** The fields of a session *)



(** ** Listing *)

Lemma discover_spec keys list_metadata :
  NoDup list_metadata →
  NoDup (discover keys list_metadata)
  ∧ ∀ k, k ∈ discover keys list_metadata ↔ k ∈ list_metadata ∨ k ∈ keys.
Proof.
  revert list_metadata. induction keys as [|k2 keys IH]; intros l Hl; simpl.
  - split; [done|]. intros k. rewrite elem_of_nil. tauto.
  - unfold list_mem. case_bool_decide as Hin.
    + destruct (IH l Hl) as [Hnodup Hmem]. split; [done|].
      intros k. rewrite Hmem, elem_of_cons. split; [tauto|].
      intros [?|[->|?]]; tauto.
    + destruct (IH (l ++ [k2])) as [Hnodup Hmem].
      { apply NoDup_app. split_and!; [done | | apply NoDup_singleton].
        by intros x Hx ->%list_elem_of_singleton. }
      split; [done|]. intros k.
      rewrite Hmem, elem_of_app, list_elem_of_singleton, elem_of_cons. tauto.
Qed.

Lemma list_remove_spec x l :
  NoDup l →
  NoDup (list_remove x l) ∧ ∀ k, k ∈ list_remove x l ↔ k ≠ x ∧ k ∈ l.
Proof.
  induction l as [|y l IH]; simpl.
  - split; [done|]. intros k. rewrite elem_of_nil. tauto.
  - intros [Hy Hl]%NoDup_cons. destruct (decide (x = y)) as [->|Hne].
    + split; [done|]. intros k. rewrite elem_of_cons. split.
      * intros Hk. split; [by intros -> | by right].
      * by intros [Hk [->|?]].
    + destruct (IH Hl) as [Hnodup Hmem]. split.
      * apply NoDup_cons. split; [|done]. rewrite Hmem. tauto.
      * intros k. rewrite !elem_of_cons, Hmem. split; [|tauto].
        intros [->|[? ?]]; [split; [congruence | by left] | tauto].
Qed.

Lemma elem_of_all_keys (mc : list (Z * record)) k :
  k ∈ concat (map (fun kd => odict.keys kd.2) mc)
  ↔ ∃ a d, (a, d) ∈ mc ∧ k ∈ odict.keys d.
Proof.
  rewrite list_elem_of_In, in_concat. split.
  - intros (l & [[a d] [<- Hin]]%in_map_iff & Hk).
    exists a, d. by rewrite !list_elem_of_In.
  - intros (a & d & Hin & Hk). exists (odict.keys d).
    split; [|by apply list_elem_of_In].
    apply in_map_iff. exists (a, d). split; [done | by apply list_elem_of_In].
Qed.

#[global] Instance stdout_grows_frame : Frame stdout_grows.
Proof.
  split; unfold stdout_grows.
  - by intros st.
  - intros st1 st2 st3 H1 H2. by etrans.
  - intros o st. simpl. by apply prefix_app_r.
Qed.

Lemma bind_get_state {A} (f : state → cmd A) st : (get_state ≫= f) st = f st st.
Proof. reflexivity. Qed.

Lemma bind_write {A} o (f : unit → cmd A) st :
  (write o ≫= f) st = f () (write o st).2.
Proof. reflexivity. Qed.

(** What the beginning of some code has printed stays printed. *)
Lemma prefix_bind {A B} (c : cmd A) (f : A → cmd B) out st :
  (∀ a, preserves stdout_grows (f a)) →
  out `prefix_of` stdout (c st).2 →
  out `prefix_of` stdout ((c ≫= f) st).2.
Proof.
  intros Hf Hc. unfold mbind, cmd_bind.
  destruct (c st) as [[a|e] st']; simpl in *; [|done].
  etrans; [done | apply Hf].
Qed.

(** X20: without [-M] and without [-v], the header of the table of a database
    that is not empty names every field that some record has, each once,
    but the backtrace. *)
Theorem list_metadata_header self address st :
  meta_cache st ≠ [] →
  args_metadata (args self) = None →
  verbose (args self) = 0%nat →
  ∃ header,
    stdout st ++ [PrintHeader "Metadata database"; Print "| address | ";
                  Print (pystr.join " | " header); Print " |
"]
      `prefix_of` stdout (list_metadata self address st).2
    ∧ NoDup header
    ∧ ∀ field, field ∈ header
               ↔ field ≠ "backtrace"
                 ∧ ∃ a d, (a, d) ∈ meta_cache st ∧ field ∈ odict.keys d.
Proof.
  intros Hmc Hmeta Hverbose.
  destruct (discover_spec (concat (map (fun kd => odict.keys kd.2) (meta_cache st))) [])
    as [Hnodup Hmem]; [constructor|].
  set (fields := discover _ []) in *.
  destruct (list_remove_spec "backtrace" fields Hnodup) as [Hnodup' Hmem'].
  exists (if list_mem "backtrace" fields then list_remove "backtrace" fields else fields).
  split_and!.
  - unfold list_metadata. rewrite bind_get_state, Hmeta, Hverbose.
    rewrite (bool_decide_eq_false_2 (length (meta_cache st) = 0%nat))
      by (by intros ?%nil_length_inv).
    apply prefix_bind; [intros ?; frame|]. simpl. fold fields.
    unfold print, print_noend. rewrite !bind_write.
    etrans; [|apply (preserves_list_lines stdout_grows)].
    simpl. by rewrite <- !app_assoc.
  - by destruct (list_mem _ _).
  - intros field. unfold list_mem. case_bool_decide as Hin.
    + rewrite Hmem', Hmem, elem_of_nil, elem_of_all_keys. tauto.
    + rewrite Hmem, elem_of_nil, elem_of_all_keys. split; [|tauto].
      intros [[]|Hk]; split; [|done]. intros ->. apply Hin, Hmem. right.
      by apply elem_of_all_keys.
Qed.

Lemma list_metadata_header_witness :
  ∃ header,
    stdout st_backtrace_first
      ++ [PrintHeader "Metadata database"; Print "| address | ";
          Print (pystr.join " | " header); Print " |
"]
      `prefix_of` stdout (list_metadata (command (list_ None None)) None
                            st_backtrace_first).2
    ∧ NoDup header
    ∧ ∀ field, field ∈ header
               ↔ field ≠ "backtrace"
                 ∧ ∃ a d, (a, d) ∈ meta_cache st_backtrace_first
                          ∧ field ∈ odict.keys d.
Proof.
  apply (list_metadata_header (command (list_ None None)) None st_backtrace_first);
    [by vm_compute | reflexivity | reflexivity].
Defined.

Lemma list_lines_unknown address list_metadata items st :
  address ∉ odict.keys items →
  list_lines (Some address) list_metadata items st = (Ok (), st).
Proof.
  induction items as [|[k d] items IH]; simpl; [done|].
  intros [Hk Hitems]%not_elem_of_cons.
  rewrite bool_decide_eq_false_2 by (intros [[=]|[=]]; done).
  unfold mbind, cmd_bind. simpl. by apply IH.
Qed.

Lemma list_blocks_unknown address list_metadata items st :
  address ∉ odict.keys items →
  list_blocks (Some address) list_metadata items st = (Ok (), st).
Proof.
  induction items as [|[k d] items IH]; simpl; [done|].
  intros [Hk Hitems]%not_elem_of_cons.
  rewrite bool_decide_eq_false_2 by (intros [[=]|[=]]; done).
  unfold mbind, cmd_bind. simpl. by apply IH.
Qed.

(** X21: [ptmeta list <address>] for an address that is not in the database
    never raises, whatever names are asked for, and prints no line for any
    address: only the headers and the ignore list. *)
Theorem list_metadata_unknown_address self address st :
  odict.get address (meta_cache st) = None →
  (list_metadata self (Some address) st).1 = Ok ()
  ∧ Forall (fun o => ∀ f s, o ≠ Colorized f s)
           (drop (length (stdout st)) (stdout (list_metadata self (Some address) st).2)).
Proof.
  intros Hnone%get_None_keys.
  unfold list_metadata, print, print_noend. rewrite bind_get_state.
  destruct (negb (bool_decide (length _ = 0%nat))),
    (bool_decide (verbose (args self) ≤ 1)%nat),
    (negb (bool_decide (backtrace_ignore st = ∅)));
    unfold mbind, cmd_bind; simpl;
    rewrite ?list_lines_unknown, ?list_blocks_unknown by done; simpl;
    (split; [done|]); rewrite <- ?app_assoc, drop_app_length; simpl;
    by repeat constructor.
Qed.

Lemma list_metadata_unknown_address_witness :
  (list_metadata (command (list_ (Some "0x10") (Some "a:b:c"))) (Some 16) st_0x20).1
  = Ok ()
  ∧ Forall (fun o => ∀ f s, o ≠ Colorized f s)
           (drop (length (stdout st_0x20))
              (stdout (list_metadata (command (list_ (Some "0x10") (Some "a:b:c")))
                         (Some 16) st_0x20).2)).
Proof. by apply list_metadata_unknown_address. Defined.

(** ** Commands one after the other *)

Lemma configure_metadata_meta_cache self feature key values st :
  meta_cache (configure_metadata self feature key values st).2 = meta_cache st.
Proof.
  unfold configure_metadata, get_state, when, print, write, set_backtrace_ignore,
    mbind, cmd_bind.
  destruct (bool_decide (1 ≤ _)%nat); simpl; by repeat case_bool_decide.
Qed.

(** X22: once [config ignore backtrace] has named a function, no backtrace
    resolves to it, whatever the bound; the captures themselves are not
    changed. *)
Theorem configure_then_get_functions self values st address d raw funcs max_len :
  odict.get address (meta_cache st) = Some d →
  odict.get "backtrace" d = Some (PyCapture raw funcs) →
  let st' := (configure_metadata self "ignore" "backtrace" values st).2 in
  meta_cache st' = meta_cache st
  ∧ ∃ l, get_functions st' address max_len = Ok (Some l)
         ∧ ∀ f, f ∈ values → f ∉ l.
Proof.
  intros Ha Hb st'. subst st'.
  pose proof (configure_metadata_meta_cache self "ignore" "backtrace" values st) as Hmc.
  pose proof (configure_metadata_ignore self "ignore" "backtrace" values st) as Hign.
  rewrite bool_decide_eq_true_2 in Hign by done.
  set (st' := (configure_metadata self "ignore" "backtrace" values st).2) in *.
  split; [done|]. rewrite <- Hmc in Ha.
  rewrite (get_functions_capture _ _ _ _ _ _ Ha Hb). eexists. split; [done|].
  intros f Hf Hl.
  destruct (get_functions_loop_prefix (backtrace_ignore st') max_len funcs) as [k Hk].
  assert (Hin : f ∈ kept (backtrace_ignore st') funcs)
    by (rewrite Hk; apply elem_of_app; by left).
  apply list_elem_of_filter in Hin as [Hnot _]. apply Hnot.
  rewrite Hign. apply elem_of_union. right. by apply elem_of_list_to_set.
Qed.

Lemma configure_then_get_functions_witness :
  let st' := (configure_metadata (command (config "ignore" "backtrace" ["f1"]))
                "ignore" "backtrace" ["f1"] st_0x20).2 in
  meta_cache st' = meta_cache st_0x20
  ∧ ∃ l, get_functions st' 32 (Some 1) = Ok (Some l)
         ∧ ∀ f, f ∈ ["f1"] → f ∉ l.
Proof.
  exact (configure_then_get_functions (command (config "ignore" "backtrace" ["f1"]))
           ["f1"] st_0x20 32 _ "#0 f1 #1 f2 #2 f3" ["f1"; "f2"; "f3"] (Some 1)
           eq_refl eq_refl).
Defined.

(** X23: a record that was deleted starts again from nothing: after [del] and
    then [add] of a plain field, the record of the address holds that field
    alone. *)
Theorem delete_then_add self self' address key value st :
  NoDup (odict.keys (meta_cache st)) →
  key ≠ "color" → key ≠ "backtrace" →
  odict.get address
    (meta_cache (add_metadata self' address key value
                   (delete_metadata self address st).2).2)
  = Some [(key, of_value value)].
Proof.
  intros Hnodup Hc Hb. rewrite add_metadata_meta_cache.
  unfold stored. rewrite !bool_decide_eq_false_2 by done.
  rewrite get_set_eq, delete_metadata_meta_cache.
  destruct (odict.mem address (meta_cache st)) eqn:Hm.
  - by rewrite get_del_eq.
  - apply mem_false in Hm. by rewrite Hm.
Qed.

Lemma delete_then_add_witness :
  odict.get 16
    (meta_cache (add_metadata (command (add "0x10" "tag" (Some "y"))) 16 "tag" (Some "y")
                   (delete_metadata (command (del "0x10")) 16 st_backtrace_first).2).2)
  = Some [("tag", PyStr "y")].
Proof.
  apply (delete_then_add (command (del "0x10")) (command (add "0x10" "tag" (Some "y")))
           16 "tag" (Some "y") st_backtrace_first);
    [apply (bool_decide_unpack _); by vm_compute | by vm_compute | by vm_compute].
Defined.
